(** * vs-git-away: the exclusion-list logic of [src/extension.ts]

    A shallow embedding of the functions of [extension.ts] that read and
    rewrite [.git/info/exclude] and build the side-bar tree:
    [getExcludedFiles], [removeFileFromExclude], [excludeFileFromGit] and
    [GitAwayTreeDataProvider.getChildren].

    - A JavaScript string is the list of its UTF-16 code units ([N]).
    - The built-ins [split('\n')], [trim], [join('\n')], [startsWith],
      [includes], [replace(/\\/g, '/')] and [Array.prototype.sort] are
      modelled by their ECMAScript meaning.
    - The host (workspace folders, the two file-system nodes the code
      touches, notifications, console) is a record threaded through a small
      state-and-exception monad; [try]/[catch] is a combinator of it.
    - The paths built with [path.join] are kept symbolic ([Path]).
    - [path.relative] and [String.prototype.localeCompare] belong to Node
      and to the locale: they are section variables. I/O failures other
      than a directory sitting in the place of the exclude file are not
      modelled. *)

From Stdlib Require Import List NArith ZArith Bool Lia.
From Stdlib Require Import Ascii String.
From Stdlib Require Import Sorting.Sorted Sorting.Permutation.
Import ListNotations.

(* ================================================================= *)
(** ** JavaScript strings *)

Module JS.

(** One UTF-16 code unit. *)
Definition char := N.
Definition jsstring := list char.

Definition LF : char := 10%N.
Definition HASH : char := 35%N.
Definition SLASH : char := 47%N.
Definition BACKSLASH : char := 92%N.

(** An ASCII literal of the source as a JavaScript string. *)
Definition js (s : string) : jsstring :=
  map N_of_ascii (list_ascii_of_string s).
Arguments js s%_string.

Definition char_eqb (a b : char) : bool := N.eqb a b.

Fixpoint str_eqb (s t : jsstring) : bool :=
  match s, t with
  | [], [] => true
  | a :: s', b :: t' => char_eqb a b && str_eqb s' t'
  | _, _ => false
  end.

(** The code units [String.prototype.trim] strips: ECMAScript WhiteSpace
    (TAB, VT, FF, SP, NBSP, ZWNBSP and the space separators of Unicode)
    and LineTerminator (LF, CR, LS, PS). *)
Definition isWhiteSpace (c : char) : bool :=
  existsb (N.eqb c)
    [9; 10; 11; 12; 13; 32; 160; 5760;
     8192; 8193; 8194; 8195; 8196; 8197; 8198; 8199; 8200; 8201; 8202;
     8232; 8233; 8239; 8287; 12288; 65279]%N.

Fixpoint trimStart (s : jsstring) : jsstring :=
  match s with
  | [] => []
  | c :: s' => if isWhiteSpace c then trimStart s' else s
  end.

Definition trimEnd (s : jsstring) : jsstring := rev (trimStart (rev s)).

(** [s.trim()] *)
Definition trim (s : jsstring) : jsstring := trimEnd (trimStart s).

(** [s.split('\n')]: never empty; [''.split('\n')] is [['']]. *)
Fixpoint split (s : jsstring) : list jsstring :=
  match s with
  | [] => [[]]
  | c :: s' =>
      if char_eqb c LF then [] :: split s'
      else match split s' with
           | l :: ls => (c :: l) :: ls
           | [] => [[c]]
           end
  end.

(** [lines.join('\n')]: the empty array joins to ['']. *)
Fixpoint join (ls : list jsstring) : jsstring :=
  match ls with
  | [] => []
  | [l] => l
  | l :: ls' => l ++ LF :: join ls'
  end.

(** [s.startsWith(p)] *)
Fixpoint startsWith (s p : jsstring) : bool :=
  match p, s with
  | [], _ => true
  | _ :: _, [] => false
  | b :: p', a :: s' => char_eqb a b && startsWith s' p'
  end.

(** [lines.includes(x)] on an array of strings. *)
Definition includes (ls : list jsstring) (x : jsstring) : bool :=
  existsb (str_eqb x) ls.

(** Truthiness of a string: only [''] is falsy. *)
Definition truthy (s : jsstring) : bool :=
  match s with [] => false | _ => true end.

(** [s.replace(/\\/g, '/')] *)
Definition replaceBackslashes (s : jsstring) : jsstring :=
  map (fun c => if char_eqb c BACKSLASH then SLASH else c) s.

(** [arr.sort(cmp)] for a consistent comparator [cmp]: ECMAScript requires
    the result to be the stable sorted permutation, which is what insertion
    from the right computes. *)
Section Sort.
Variable A : Type.
Variable cmp : A -> A -> Z.

Fixpoint insert (x : A) (l : list A) : list A :=
  match l with
  | [] => [x]
  | y :: l' => if (cmp x y <=? 0)%Z then x :: l else y :: insert x l'
  end.

Fixpoint sort (l : list A) : list A :=
  match l with
  | [] => []
  | x :: l' => insert x (sort l')
  end.
End Sort.
Arguments insert {A} cmp x l.
Arguments sort {A} cmp l.

End JS.
Import JS.

(* ================================================================= *)
(** ** The host: workspace, file system, notifications *)

Module Host.

(** What sits at a path. [fs.readFileSync] and [fs.writeFileSync] throw on
    a directory; [fs.existsSync] is true for it. *)
Inductive FsNode :=
| Missing
| RegularFile (content : jsstring)
| Directory.

(** [.git/info] under the first workspace folder, and [exclude] inside it:
    the file cannot exist without the directory. *)
Inductive GitInfo :=
| NoInfoDir
| InfoDir (exclude : FsNode).

(** The paths the code computes with [path.join]. *)
Inductive Path :=
| GitInfoDirPath (workspaceRoot : jsstring)
| ExcludeFilePath (workspaceRoot : jsstring)
| EntryPath (workspaceRoot excludedPath : jsstring).

Inductive Error := ENOENT | EISDIR | TypeError.

Inductive Severity := SevError | SevWarning | SevInformation.

(** The message templates of the source, one constructor each. *)
Inductive Message :=
| MsgNoWorkspace                          (* ワークスペースが開かれていません。 *)
| MsgNoExcludeFile                        (* 除外ファイルが存在しません。 *)
| MsgNotInList (p : jsstring)             (* ${p} は除外リストに見つかりませんでした。 *)
| MsgRemoved (p : jsstring)               (* ${p} を除外リストから削除しました。 *)
| MsgRemoveFailed (e : Error)             (* ファイルを除外リストから削除できませんでした: ${e} *)
| MsgAlreadyExcluded (p : jsstring)       (* ${p} は既にgit管理から外されています。 *)
| MsgExcluded (p : jsstring)              (* ${p} をgit管理から外しました。 *)
| MsgExcludeFailed (e : Error).           (* ファイルをgit管理から外すことができませんでした: ${e} *)

Inductive ConsoleLabel :=
| ErrorReadingExcludedFiles
| ErrorRemovingFileFromExclude
| ErrorExcludingFileFromGit.

(** The mutating [fs] calls, in the order they were made. *)
Inductive FsOp :=
| MkdirRecursive (p : Path)
| WriteFile (p : Path) (content : jsstring).

Record World := mkWorld {
  workspaceFolders : option (list jsstring); (* uri.fsPath of each folder *)
  gitInfo : GitInfo;
  entryExists : jsstring -> bool;  (* existsSync(path.join(root, entry)) *)
  notifications : list (Severity * Message);
  console : list (ConsoleLabel * Error);
  fsJournal : list FsOp
}.

Inductive Result (A : Type) :=
| Ok (a : A)
| Throw (e : Error).
Arguments Ok {A} a.
Arguments Throw {A} e.

(** Computations on the host that may throw. *)
Definition M (A : Type) : Type := World -> Result A * World.

Definition ret {A} (a : A) : M A := fun w => (Ok a, w).

Definition bind {A B} (c : M A) (k : A -> M B) : M B :=
  fun w => match c w with
           | (Ok a, w') => k a w'
           | (Throw e, w') => (Throw e, w')
           end.

Definition throw {A} (e : Error) : M A := fun w => (Throw e, w).

(** [try { body } catch (error) { handler }] *)
Definition tryCatch {A} (body : M A) (handler : Error -> M A) : M A :=
  fun w => match body w with
           | (Ok a, w') => (Ok a, w')
           | (Throw e, w') => handler e w'
           end.

Definition getWorkspaceFolders : M (option (list jsstring)) :=
  fun w => (Ok (workspaceFolders w), w).

Definition existsSync (p : Path) : M bool :=
  fun w =>
    match p with
    | GitInfoDirPath _ =>
        (Ok (match gitInfo w with NoInfoDir => false | InfoDir _ => true end), w)
    | ExcludeFilePath _ =>
        (Ok (match gitInfo w with
             | InfoDir (RegularFile _) | InfoDir Directory => true
             | _ => false
             end), w)
    | EntryPath _ e => (Ok (entryExists w e), w)
    end.

(** [fs.readFileSync(p, 'utf8')]; only the exclude file is ever read. *)
Definition readFileSync (p : Path) : M jsstring :=
  fun w =>
    match p, gitInfo w with
    | ExcludeFilePath _, InfoDir (RegularFile c) => (Ok c, w)
    | ExcludeFilePath _, InfoDir Directory => (Throw EISDIR, w)
    | GitInfoDirPath _, InfoDir _ => (Throw EISDIR, w)
    | _, _ => (Throw ENOENT, w)
    end.

Definition setGitInfo (g : GitInfo) (op : FsOp) (w : World) : World :=
  mkWorld (workspaceFolders w) g (entryExists w) (notifications w)
          (console w) (fsJournal w ++ [op]).

(** [fs.writeFileSync(p, content, 'utf8')]; only the exclude file is ever
    written. *)
Definition writeFileSync (p : Path) (content : jsstring) : M unit :=
  fun w =>
    match p, gitInfo w with
    | ExcludeFilePath _, InfoDir Directory => (Throw EISDIR, w)
    | ExcludeFilePath _, InfoDir _ =>
        (Ok tt, setGitInfo (InfoDir (RegularFile content)) (WriteFile p content) w)
    | GitInfoDirPath _, InfoDir _ => (Throw EISDIR, w)
    | _, _ => (Throw ENOENT, w)
    end.

(** [fs.mkdirSync(p, { recursive: true })]; only [.git/info] is ever made. *)
Definition mkdirSync (p : Path) : M unit :=
  fun w =>
    match p, gitInfo w with
    | GitInfoDirPath _, NoInfoDir =>
        (Ok tt, setGitInfo (InfoDir Missing) (MkdirRecursive p) w)
    | GitInfoDirPath _, InfoDir _ => (Ok tt, w)
    | _, _ => (Throw ENOENT, w)
    end.

Definition notify (s : Severity) (m : Message) : M unit :=
  fun w => (Ok tt,
            mkWorld (workspaceFolders w) (gitInfo w) (entryExists w)
                    (notifications w ++ [(s, m)]) (console w) (fsJournal w)).

Definition showErrorMessage := notify SevError.
Definition showWarningMessage := notify SevWarning.
Definition showInformationMessage := notify SevInformation.

Definition console_error (l : ConsoleLabel) (e : Error) : M unit :=
  fun w => (Ok tt,
            mkWorld (workspaceFolders w) (gitInfo w) (entryExists w)
                    (notifications w) (console w ++ [(l, e)]) (fsJournal w)).

(** [!workspaceFolders] *)
Definition undefinedFolders (wf : option (list jsstring)) : bool :=
  match wf with None => true | Some _ => false end.

(** [!workspaceFolders || workspaceFolders.length === 0] *)
Definition noFolders (wf : option (list jsstring)) : bool :=
  undefinedFolders wf ||
  match wf with Some l => Nat.eqb (List.length l) 0 | None => false end.

(** [workspaceFolders[0].uri.fsPath]: a TypeError on [undefined] and on the
    empty array. *)
Definition firstFolderPath (wf : option (list jsstring)) : M jsstring :=
  match wf with
  | Some (f :: _) => ret f
  | _ => throw TypeError
  end.

End Host.
Import Host.

Declare Scope host_scope.
Delimit Scope host_scope with host.
Notation "x <- c ;; k" := (bind c (fun x => k))
  (at level 61, c at next level, right associativity) : host_scope.
Notation "c ;; k" := (bind c (fun _ => k))
  (at level 61, right associativity) : host_scope.
Open Scope host_scope.

(* ================================================================= *)
(** ** Tree items *)

Inductive TreeItemCollapsibleState := CollapsibleNone | Collapsed | Expanded.

Inductive ThemeIcon := NewThemeIcon (id : jsstring).

Record Command := mkCommand {
  command_id : jsstring;
  command_title : jsstring;
  command_arguments : list Path
}.

Record GitAwayTreeItem := mkItem {
  label : jsstring;
  collapsibleState : TreeItemCollapsibleState;
  iconPath : option ThemeIcon;
  command : option Command;
  tooltip : jsstring;
  contextValue : jsstring
}.

(** The constructor of [GitAwayTreeItem]: the tooltip is the label and the
    context value is ['gitAwayItem']. *)
Definition newGitAwayTreeItem (label : jsstring)
    (collapsibleState : TreeItemCollapsibleState)
    (iconPath : option ThemeIcon) (command : option Command)
  : GitAwayTreeItem :=
  mkItem label collapsibleState iconPath command label (js "gitAwayItem").

Definition setTooltipAndContext (t : GitAwayTreeItem) (tip ctx : jsstring)
  : GitAwayTreeItem :=
  mkItem (label t) (collapsibleState t) (iconPath t) (command t) tip ctx.

(** '除外されたファイルはありません' *)
Definition lit_noExcludedFiles : jsstring :=
  [38500; 22806; 12373; 12428; 12383; 12501; 12449; 12452; 12523; 12399;
   12354; 12426; 12414; 12379; 12435]%N.

(** '除外されたファイル: ' *)
Definition lit_excludedFile : jsstring :=
  [38500; 22806; 12373; 12428; 12383; 12501; 12449; 12452; 12523; 58; 32]%N.

(** '除外されたファイル（存在しません）: ' *)
Definition lit_excludedFileMissing : jsstring :=
  [38500; 22806; 12373; 12428; 12383; 12501; 12449; 12452; 12523; 65288;
   23384; 22312; 12375; 12414; 12379; 12435; 65289; 58; 32]%N.

(** 'ファイルを開く' *)
Definition lit_openFile : jsstring :=
  [12501; 12449; 12452; 12523; 12434; 38283; 12367]%N.

(** A [for ... of] loop whose body pushes one value per element. *)
Fixpoint forEachPush {A B} (body : A -> M B) (xs : list A) : M (list B) :=
  match xs with
  | [] => ret []
  | x :: xs' => y <- body x ;; ys <- forEachPush body xs' ;; ret (y :: ys)
  end.

(* ================================================================= *)
(** ** The functions of [extension.ts] *)

Section Extension.

(** [path.relative(from, to)] of Node. *)
Variable path_relative : jsstring -> jsstring -> jsstring.

(** [a.localeCompare(b)] in the host's locale. *)
Variable localeCompare : jsstring -> jsstring -> Z.

(** The filter of [getExcludedFiles]: [line && !line.startsWith('#')]. *)
Definition keepLine (line : jsstring) : bool :=
  truthy line && negb (startsWith line (js "#")).

Definition getExcludedFiles : M (list jsstring) :=
  tryCatch
    (workspaceFolders <- getWorkspaceFolders ;;
     if noFolders workspaceFolders then ret []
     else
       workspaceRoot <- firstFolderPath workspaceFolders ;;
       let excludeFilePath := ExcludeFilePath workspaceRoot in
       ex <- existsSync excludeFilePath ;;
       if negb ex then ret []
       else
         excludeContent <- readFileSync excludeFilePath ;;
         let lines := filter keepLine (map trim (split excludeContent)) in
         ret lines)
    (fun error =>
       console_error ErrorReadingExcludedFiles error ;;
       ret []).

Definition removeFileFromExclude (excludedPath : jsstring) : M bool :=
  tryCatch
    (workspaceFolders <- getWorkspaceFolders ;;
     if noFolders workspaceFolders then
       showErrorMessage MsgNoWorkspace ;;
       ret false
     else
       workspaceRoot <- firstFolderPath workspaceFolders ;;
       let excludeFilePath := ExcludeFilePath workspaceRoot in
       ex <- existsSync excludeFilePath ;;
       if negb ex then
         showWarningMessage MsgNoExcludeFile ;;
         ret false
       else
         excludeContent <- readFileSync excludeFilePath ;;
         let lines := split excludeContent in
         let filteredLines :=
           filter (fun line => negb (str_eqb (trim line) excludedPath)) lines in
         if Nat.eqb (List.length filteredLines) (List.length lines) then
           showWarningMessage (MsgNotInList excludedPath) ;;
           ret false
         else
           let newContent := join filteredLines in
           writeFileSync excludeFilePath newContent ;;
           showInformationMessage (MsgRemoved excludedPath) ;;
           ret true)
    (fun error =>
       console_error ErrorRemovingFileFromExclude error ;;
       showErrorMessage (MsgRemoveFailed error) ;;
       ret false).

Definition excludeFileFromGit (filePath : jsstring) : M bool :=
  tryCatch
    (workspaceFolders <- getWorkspaceFolders ;;
     if noFolders workspaceFolders then
       showErrorMessage MsgNoWorkspace ;;
       ret false
     else
       workspaceRoot <- firstFolderPath workspaceFolders ;;
       let gitInfoDir := GitInfoDirPath workspaceRoot in
       let excludeFilePath := ExcludeFilePath workspaceRoot in
       dirEx <- existsSync gitInfoDir ;;
       (if negb dirEx then mkdirSync gitInfoDir else ret tt) ;;
       let relativePath := path_relative workspaceRoot filePath in
       fileEx <- existsSync excludeFilePath ;;
       excludeContent <-
         (if fileEx then readFileSync excludeFilePath else ret (js "")) ;;
       let lines := split excludeContent in
       let pathToAdd := replaceBackslashes relativePath in
       if includes lines pathToAdd then
         showInformationMessage (MsgAlreadyExcluded pathToAdd) ;;
         ret true
       else
         let newContent :=
           trim excludeContent
           ++ (if truthy (trim excludeContent) then [LF] else js "")
           ++ pathToAdd ++ [LF] in
         writeFileSync excludeFilePath newContent ;;
         showInformationMessage (MsgExcluded pathToAdd) ;;
         ret true)
    (fun error =>
       console_error ErrorExcludingFileFromGit error ;;
       showErrorMessage (MsgExcludeFailed error) ;;
       ret false).

(** The body of the loop of [getChildren]. *)
Definition excludedFileItem (workspaceRoot excludedPath : jsstring)
  : M GitAwayTreeItem :=
  let fullPath := EntryPath workspaceRoot excludedPath in
  fileExists <- existsSync fullPath ;;
  let iconName := if fileExists then js "file" else js "warning" in
  let tooltip :=
    if fileExists then lit_excludedFile ++ excludedPath
    else lit_excludedFileMissing ++ excludedPath in
  let command :=
    if fileExists
    then Some (mkCommand (js "vscode.open") lit_openFile [fullPath])
    else None in
  let treeItem :=
    newGitAwayTreeItem excludedPath CollapsibleNone
                       (Some (NewThemeIcon iconName)) command in
  ret (setTooltipAndContext treeItem tooltip (js "excludedFile")).

(** [GitAwayTreeDataProvider.getChildren(element)] *)
Definition getChildren (element : option GitAwayTreeItem)
  : M (list GitAwayTreeItem) :=
  match element with
  | None =>
      excludedFiles <- getExcludedFiles ;;
      if Nat.eqb (List.length excludedFiles) 0 then
        ret [newGitAwayTreeItem lit_noExcludedFiles CollapsibleNone
                                (Some (NewThemeIcon (js "info"))) None]
      else
        workspaceFolders <- getWorkspaceFolders ;;
        if undefinedFolders workspaceFolders then ret []
        else
          workspaceRoot <- firstFolderPath workspaceFolders ;;
          files <- forEachPush (excludedFileItem workspaceRoot) excludedFiles ;;
          ret (sort (fun a b => localeCompare (label a) (label b)) files)
  | Some _ => ret []
  end.

End Extension.

(* ================================================================= *)
(** ** Concrete stand-ins for the examples *)

Fixpoint stripPrefix (p s : jsstring) : option jsstring :=
  match p, s with
  | [], _ => Some s
  | _ :: _, [] => None
  | a :: p', b :: s' => if char_eqb a b then stripPrefix p' s' else None
  end.

(** [path.relative(from, to)] on the inputs the examples use: POSIX,
    [from] and [to] normalized and [to] strictly below [from]. Elsewhere it
    is not Node's function (it returns [to]). *)
Definition relativeBelow (from to : jsstring) : jsstring :=
  match stripPrefix (from ++ js "/") to with
  | Some r => r
  | None => to
  end.

(** Comparison by code units, a total order standing for a collation. *)
Fixpoint codeUnitCompare (a b : jsstring) : Z :=
  match a, b with
  | [], [] => 0
  | [], _ :: _ => -1
  | _ :: _, [] => 1
  | x :: a', y :: b' =>
      match N.compare x y with
      | Lt => -1
      | Gt => 1
      | Eq => codeUnitCompare a' b'
      end
  end.

(** A workspace rooted at [/ws] whose [.git/info] is [g]. *)
Definition wsWorld (g : GitInfo) (exists_ : jsstring -> bool) : World :=
  mkWorld (Some [js "/ws"]) g exists_ [] [] [].

Definition fileWorld (content : jsstring) : World :=
  wsWorld (InfoDir (RegularFile content)) (fun _ => false).

(* ================================================================= *)
(** ** Vocabulary of the statements *)

(** The world and the value a computation ends with. *)
Definition run {A} (c : M A) (w : World) : World := snd (c w).
Definition value {A} (c : M A) (w : World) : Result A := fst (c w).

(** The entries [getExcludedFiles] keeps of an array of raw lines. *)
Definition loadLines (ls : list jsstring) : list jsstring :=
  filter keepLine (map trim ls).

(** What [excludeFileFromGit] takes as the old content: the text of the
    exclude file, or [''] when there is none. *)
Definition priorContent (g : GitInfo) : jsstring :=
  match g with
  | InfoDir (RegularFile c) => c
  | _ => js ""
  end.

(** The entry [excludeFileFromGit] derives from a file path. *)
Definition pathToAdd (path_relative : jsstring -> jsstring -> jsstring)
    (workspaceRoot filePath : jsstring) : jsstring :=
  replaceBackslashes (path_relative workspaceRoot filePath).

(** The outcomes, named as the notification that announces each. *)
Definition Added (p : jsstring) := (SevInformation, MsgExcluded p).
Definition AlreadyPresent (p : jsstring) := (SevInformation, MsgAlreadyExcluded p).
Definition Removed (p : jsstring) := (SevInformation, MsgRemoved p).
Definition NotFound (p : jsstring) := (SevWarning, MsgNotInList p).
Definition FileMissing := (SevWarning, MsgNoExcludeFile).

(** The world after one more notification, one more console line, a write
    of the exclude file, and the check-and-create of [.git/info]. *)
Definition notified (n : Severity * Message) (w : World) : World :=
  run (notify (fst n) (snd n)) w.

Definition logged (l : ConsoleLabel) (e : Error) (w : World) : World :=
  run (console_error l e) w.

Definition written (workspaceRoot content : jsstring) (w : World) : World :=
  setGitInfo (InfoDir (RegularFile content))
             (WriteFile (ExcludeFilePath workspaceRoot) content) w.

Definition withInfoDir (workspaceRoot : jsstring) (w : World) : World :=
  match gitInfo w with
  | NoInfoDir =>
      setGitInfo (InfoDir Missing)
                 (MkdirRecursive (GitInfoDirPath workspaceRoot)) w
  | InfoDir _ => w
  end.

(** The replacement content [excludeFileFromGit] builds from the old
    content [c] and the entry [p]. *)
Definition appended (c p : jsstring) : jsstring :=
  trim c ++ (if truthy (trim c) then [LF] else js "") ++ p ++ [LF].

(** The lines [removeFileFromExclude] keeps of the content [c]. *)
Definition keptLines (e c : jsstring) : list jsstring :=
  filter (fun line => negb (str_eqb (trim line) e)) (split c).

(** The entries a world lists: those of the exclude file of the first
    workspace folder, none without a folder or a readable file. *)
Definition entriesOf (w : World) : list jsstring :=
  if noFolders (workspaceFolders w) then []
  else match gitInfo w with
       | InfoDir (RegularFile c) => loadLines (split c)
       | _ => []
       end.

(** A line that counts as an entry: not empty, not a comment. *)
Definition isEntryLine (l : jsstring) : Prop :=
  l <> [] /\ hd_error l <> Some HASH.

(** Two lists with the same elements, whatever the order. *)
Definition sameEntrySet (a b : list jsstring) : Prop :=
  forall e, In e a <-> In e b.

(** A comparator [Array.prototype.sort] can rely on. *)
Definition consistentComparator (A : Type) (cmp : A -> A -> Z) : Prop :=
  (forall a b, (0 < cmp a b)%Z -> (cmp b a <= 0)%Z)
  /\ (forall a b c, (cmp a b <= 0)%Z -> (cmp b c <= 0)%Z -> (cmp a c <= 0)%Z).
Arguments consistentComparator {A} cmp.

(** The node shown when nothing is excluded. *)
Definition placeholderItem : GitAwayTreeItem :=
  newGitAwayTreeItem lit_noExcludedFiles CollapsibleNone
                     (Some (NewThemeIcon (js "info"))) None.

(** No whitespace at either end. *)
Definition isTrimmed (s : jsstring) : bool :=
  match s with [] => true | c :: _ => negb (isWhiteSpace c) end
  && match rev s with [] => true | c :: _ => negb (isWhiteSpace c) end.

Definition allWhiteSpace (s : jsstring) : bool := forallb isWhiteSpace s.

Definition jsstring_eq_dec : forall s t : jsstring, {s = t} + {s <> t} :=
  list_eq_dec N.eq_dec.

(* ================================================================= *)
(** ** The provider's event and the commands registered by [activate] *)

(** The two messages only the commands show. *)
Inductive CommandMessage :=
| MsgNoFileSelected           (* ファイルが選択されていません。 *)
| MsgExplorerRefreshed.       (* Git Away Explorer refreshed! *)

(** The host together with what the command layer adds to it: how often
    [_onDidChangeTreeData] fired, and the messages shown by the commands
    themselves (a command shows at most one, and none in a run that calls
    into the functions above). *)
Record Session := mkSession {
  host : World;
  treeDataChanged : nat;
  commandMessages : list (Severity * CommandMessage)
}.

Definition Cmd (A : Type) : Type := Session -> Result A * Session.

Definition cret {A} (a : A) : Cmd A := fun s => (Ok a, s).

Definition cbind {A B} (c : Cmd A) (k : A -> Cmd B) : Cmd B :=
  fun s => match c s with
           | (Ok a, s') => k a s'
           | (Throw e, s') => (Throw e, s')
           end.

(** [await f(...)] for one of the functions on the host. *)
Definition liftHost {A} (c : M A) : Cmd A :=
  fun s => let (r, w') := c (host s) in
           (r, mkSession w' (treeDataChanged s) (commandMessages s)).

(** [GitAwayTreeDataProvider.refresh()]: fires the change event. *)
Definition refresh : Cmd unit :=
  fun s => (Ok tt,
            mkSession (host s) (S (treeDataChanged s)) (commandMessages s)).

(** [GitAwayTreeDataProvider.getTreeItem(element)] *)
Definition getTreeItem (element : GitAwayTreeItem) : GitAwayTreeItem :=
  element.

Definition showCommandMessage (sev : Severity) (m : CommandMessage)
  : Cmd unit :=
  fun s => (Ok tt,
            mkSession (host s) (treeDataChanged s)
                      (commandMessages s ++ [(sev, m)])).

Section Commands.

Variable path_relative : jsstring -> jsstring -> jsstring.

(** [vs-git-away.refreshExplorer] *)
Definition refreshCommand : Cmd unit :=
  cbind refresh (fun _ =>
  showCommandMessage SevInformation MsgExplorerRefreshed).

(** [vs-git-away.excludeFromGit]; [uri] is the [fsPath] of the selected
    resource, [None] for [undefined]. *)
Definition excludeFromGitCommand (uri : option jsstring) : Cmd unit :=
  match uri with
  | None => showCommandMessage SevError MsgNoFileSelected
  | Some fsPath =>
      cbind (liftHost (excludeFileFromGit path_relative fsPath))
            (fun success => if success then refresh else cret tt)
  end.

(** [vs-git-away.removeFromExclude]: [!item || !item.label] shows the
    error. *)
Definition removeFromExcludeCommand (item : option GitAwayTreeItem)
  : Cmd unit :=
  match item with
  | None => showCommandMessage SevError MsgNoFileSelected
  | Some it =>
      if negb (truthy (label it))
      then showCommandMessage SevError MsgNoFileSelected
      else
        cbind (liftHost (removeFileFromExclude (label it)))
              (fun success => if success then refresh else cret tt)
  end.

End Commands.

(** A session that starts on the world [w]. *)
Definition sessionOn (w : World) : Session := mkSession w 0 [].

(** A line [getExcludedFiles] does not list: blank or a comment once
    trimmed. *)
Definition notListed (l : jsstring) : bool := negb (keepLine (trim l)).

(** The command [getChildren] gives the node of an entry [e] that exists
    under [root]. *)
Definition openCommand (root e : jsstring) : Command :=
  mkCommand (js "vscode.open") lit_openFile [EntryPath root e].

(* ================================================================= *)
(** ** The string built-ins *)

Example split_empty : split (js "") = [js ""].
Proof. reflexivity. Qed.

Example split_three :
  split (join [js "a.txt"; js "b.txt"; js ""]) = [js "a.txt"; js "b.txt"; js ""].
Proof. reflexivity. Qed.

Example trim_both : trim (js "  a b.txt  ") = js "a b.txt".
Proof. reflexivity. Qed.

Example trim_text :
  trim (join [js ""; js " # c"; js "a"; js ""; js ""])
  = join [js "# c"; js "a"].
Proof. reflexivity. Qed.

Lemma char_eqb_eq (a b : char) : char_eqb a b = true <-> a = b.
Proof. apply N.eqb_eq. Qed.

Lemma char_eqb_neq (a b : char) : char_eqb a b = false <-> a <> b.
Proof. apply N.eqb_neq. Qed.

Lemma str_eqb_eq (s t : jsstring) : str_eqb s t = true <-> s = t.
Proof.
  revert t; induction s as [|a s IH]; intros [|b t]; simpl;
    try (split; [discriminate | congruence]); try tauto.
  rewrite andb_true_iff, char_eqb_eq, IH.
  split; [intros [-> ->]; reflexivity | intros H; inversion H; auto].
Qed.

Lemma str_eqb_refl (s : jsstring) : str_eqb s s = true.
Proof. apply str_eqb_eq; reflexivity. Qed.

Lemma str_eqb_neq (s t : jsstring) : str_eqb s t = false <-> s <> t.
Proof.
  rewrite <- str_eqb_eq. destruct (str_eqb s t); split; congruence.
Qed.

Lemma includes_In (ls : list jsstring) (x : jsstring) :
  includes ls x = true <-> In x ls.
Proof.
  unfold includes. rewrite existsb_exists. split.
  - intros (y & Hy & E). apply str_eqb_eq in E. subst. exact Hy.
  - intros H. exists x. split; [exact H | apply str_eqb_refl].
Qed.

Lemma includes_not_In (ls : list jsstring) (x : jsstring) :
  includes ls x = false <-> ~ In x ls.
Proof.
  rewrite <- includes_In. destruct (includes ls x); split; congruence.
Qed.

(** *** [split] and [join] *)

Lemma split_not_nil (s : jsstring) : split s <> [].
Proof.
  destruct s as [|c s]; simpl; [discriminate|].
  destruct (char_eqb c LF); [discriminate|].
  destruct (split s); discriminate.
Qed.

Lemma split_cons_other (c : char) (s : jsstring) :
  c <> LF -> split (c :: s) = (c :: hd [] (split s)) :: tl (split s).
Proof.
  intros H. simpl. apply char_eqb_neq in H. rewrite H.
  destruct (split s) eqn:E; [exfalso; eapply split_not_nil; eauto|reflexivity].
Qed.

Lemma split_hd_tl (s : jsstring) : hd [] (split s) :: tl (split s) = split s.
Proof.
  destruct (split s) eqn:E; [exfalso; eapply split_not_nil; eauto|reflexivity].
Qed.

Lemma split_app_LF (s t : jsstring) :
  split (s ++ LF :: t) = split s ++ split t.
Proof.
  induction s as [|c s IH]; [reflexivity|].
  simpl. destruct (char_eqb c LF).
  - rewrite IH. reflexivity.
  - rewrite IH. destruct (split s) eqn:E;
      [exfalso; eapply split_not_nil; eauto|reflexivity].
Qed.

Lemma split_noLF (s : jsstring) : ~ In LF s -> split s = [s].
Proof.
  induction s as [|c s IH]; intros H; [reflexivity|].
  rewrite split_cons_other by (intros ->; apply H; left; reflexivity).
  rewrite IH by (intros K; apply H; right; exact K). reflexivity.
Qed.

Lemma split_lines_noLF (s : jsstring) :
  Forall (fun l => ~ In LF l) (split s).
Proof.
  induction s as [|c s IH]; simpl.
  - constructor; [intros []|constructor].
  - destruct (char_eqb c LF) eqn:E.
    + constructor; [intros []|exact IH].
    + apply char_eqb_neq in E.
      destruct (split s) as [|l ls]; [repeat constructor; intros [K|[]]; congruence|].
      inversion IH; subst. constructor; [|assumption].
      intros [K|K]; [congruence|contradiction].
Qed.

Lemma join_cons (l : jsstring) (ls : list jsstring) :
  ls <> [] -> join (l :: ls) = l ++ LF :: join ls.
Proof. destruct ls; [congruence|reflexivity]. Qed.

Theorem join_split (s : jsstring) : join (split s) = s.
Proof.
  induction s as [|c s IH]; [reflexivity|].
  simpl. destruct (char_eqb c LF) eqn:E.
  - apply char_eqb_eq in E. subst c.
    rewrite join_cons by apply split_not_nil. rewrite IH. reflexivity.
  - destruct (split s) as [|l ls] eqn:Es;
      [exfalso; eapply split_not_nil; eauto|].
    destruct ls; simpl in *; rewrite <- IH; reflexivity.
Qed.

Theorem split_join (ls : list jsstring) :
  ls <> [] -> Forall (fun l => ~ In LF l) ls -> split (join ls) = ls.
Proof.
  induction ls as [|l ls IH]; [congruence|]. intros _ H.
  inversion H as [|? ? Hl Hls]; subst.
  destruct ls as [|l2 ls'].
  - simpl. apply split_noLF, Hl.
  - rewrite join_cons by discriminate. rewrite split_app_LF.
    rewrite IH by (discriminate || assumption).
    rewrite split_noLF by assumption. reflexivity.
Qed.

Lemma split_snoc_LF (s : jsstring) : split (s ++ [LF]) = split s ++ [[]].
Proof. apply (split_app_LF s []). Qed.

Lemma split_snoc_other (s : jsstring) (x : char) :
  x <> LF ->
  split (s ++ [x]) = removelast (split s) ++ [last (split s) [] ++ [x]].
Proof.
  intros Hx. induction s as [|c s IH].
  - simpl. apply char_eqb_neq in Hx. rewrite Hx. reflexivity.
  - simpl app. simpl split. destruct (char_eqb c LF).
    + rewrite IH. destruct (split s) eqn:E;
        [exfalso; eapply split_not_nil; eauto|reflexivity].
    + rewrite IH. destruct (split s) as [|l ls] eqn:E;
        [exfalso; eapply split_not_nil; eauto|].
      destruct ls; reflexivity.
Qed.

(** *** [trim] *)

Lemma trimStart_decomp (s : jsstring) :
  exists w, s = w ++ trimStart s /\ allWhiteSpace w = true.
Proof.
  induction s as [|c s (w & E & Hw)]; [exists []; auto|].
  simpl. destruct (isWhiteSpace c) eqn:Hc.
  - exists (c :: w). split; [simpl; congruence|].
    simpl. rewrite Hc. exact Hw.
  - exists []. auto.
Qed.

Lemma trimStart_head (s : jsstring) (c : char) (r : jsstring) :
  trimStart s = c :: r -> isWhiteSpace c = false.
Proof.
  induction s as [|a s IH]; simpl; [discriminate|].
  destruct (isWhiteSpace a) eqn:Ha; [exact IH|].
  intros E. inversion E; subst. exact Ha.
Qed.

Lemma trimStart_ws_app (w s : jsstring) :
  allWhiteSpace w = true -> trimStart (w ++ s) = trimStart s.
Proof.
  induction w as [|c w IH]; [reflexivity|].
  simpl. intros H. apply andb_true_iff in H as [Hc Hw].
  rewrite Hc. auto.
Qed.

Lemma trimStart_allWhiteSpace (w : jsstring) :
  allWhiteSpace w = true -> trimStart w = [].
Proof.
  intros H. rewrite <- (app_nil_r w). rewrite trimStart_ws_app; auto.
Qed.

Lemma trimStart_app (s t : jsstring) :
  trimStart (s ++ t) =
  match trimStart s with [] => trimStart t | _ => trimStart s ++ t end.
Proof.
  induction s as [|c s IH]; simpl.
  - destruct (trimStart t); reflexivity.
  - destruct (isWhiteSpace c); [exact IH|reflexivity].
Qed.

Lemma trimStart_fixed (s : jsstring) :
  match s with [] => True | c :: _ => isWhiteSpace c = false end ->
  trimStart s = s.
Proof. destruct s as [|c s]; simpl; [auto|]. intros ->. reflexivity. Qed.

Lemma allWhiteSpace_rev (w : jsstring) :
  allWhiteSpace (rev w) = allWhiteSpace w.
Proof.
  unfold allWhiteSpace. induction w as [|c w IH]; [reflexivity|].
  simpl. rewrite forallb_app, IH. simpl. rewrite andb_true_r, andb_comm.
  reflexivity.
Qed.

Lemma trimEnd_decomp (s : jsstring) :
  exists w, s = trimEnd s ++ w /\ allWhiteSpace w = true.
Proof.
  unfold trimEnd. destruct (trimStart_decomp (rev s)) as (w & E & Hw).
  exists (rev w). split; [|rewrite allWhiteSpace_rev; exact Hw].
  rewrite <- rev_app_distr, <- E, rev_involutive. reflexivity.
Qed.

Lemma trimEnd_app_ws (s w : jsstring) :
  allWhiteSpace w = true -> trimEnd (s ++ w) = trimEnd s.
Proof.
  intros H. unfold trimEnd. rewrite rev_app_distr, trimStart_ws_app; auto.
  rewrite allWhiteSpace_rev. exact H.
Qed.

Lemma trimEnd_nil : trimEnd [] = [].
Proof. reflexivity. Qed.

Lemma trim_ws_app (w s : jsstring) :
  allWhiteSpace w = true -> trim (w ++ s) = trim s.
Proof. intros H. unfold trim. rewrite trimStart_ws_app; auto. Qed.

Lemma trim_app_ws (s w : jsstring) :
  allWhiteSpace w = true -> trim (s ++ w) = trim s.
Proof.
  intros H. unfold trim. rewrite trimStart_app.
  destruct (trimStart s) as [|c r] eqn:E.
  - rewrite trimStart_allWhiteSpace by exact H. reflexivity.
  - apply trimEnd_app_ws, H.
Qed.

Lemma trim_nil : trim [] = [].
Proof. reflexivity. Qed.

(** [trim] cuts a whitespace prefix and a whitespace suffix and nothing
    else. *)
Theorem trim_decomp (s : jsstring) :
  exists lead trail,
    s = lead ++ trim s ++ trail
    /\ allWhiteSpace lead = true /\ allWhiteSpace trail = true.
Proof.
  destruct (trimStart_decomp s) as (lead & E1 & H1).
  destruct (trimEnd_decomp (trimStart s)) as (trail & E2 & H2).
  exists lead, trail. unfold trim. rewrite <- E2. auto.
Qed.

Lemma trimEnd_head (s : jsstring) :
  match s with [] => True | c :: _ => isWhiteSpace c = false end ->
  match trimEnd s with [] => True | c :: _ => isWhiteSpace c = false end.
Proof.
  destruct s as [|c s]; [simpl; auto|]. intros Hc.
  destruct (trimEnd_decomp (c :: s)) as (w & E & Hw).
  destruct (trimEnd (c :: s)) as [|d r] eqn:Et; [exact I|].
  simpl in E. inversion E; subst. exact Hc.
Qed.

Lemma trimEnd_fixed (s : jsstring) :
  match rev s with [] => True | c :: _ => isWhiteSpace c = false end ->
  trimEnd s = s.
Proof.
  intros H. unfold trimEnd. rewrite trimStart_fixed by exact H.
  apply rev_involutive.
Qed.

(** The result of [trim] has no whitespace at either end. *)
Theorem trim_isTrimmed (s : jsstring) : isTrimmed (trim s) = true.
Proof.
  unfold isTrimmed. apply andb_true_iff. split.
  - assert (H := trimEnd_head (trimStart s)).
    unfold trim. destruct (trimEnd (trimStart s)) as [|c r]; [reflexivity|].
    rewrite H; [reflexivity|].
    destruct (trimStart s) as [|d q] eqn:E; [exact I|].
    eapply trimStart_head; eauto.
  - unfold trim, trimEnd. rewrite rev_involutive.
    destruct (trimStart (rev (trimStart s))) as [|c r] eqn:E; [reflexivity|].
    erewrite trimStart_head by eauto. reflexivity.
Qed.

Theorem isTrimmed_trim (s : jsstring) : isTrimmed s = true -> trim s = s.
Proof.
  unfold isTrimmed. intros H. apply andb_true_iff in H as [H1 H2].
  unfold trim. rewrite trimStart_fixed.
  - apply trimEnd_fixed. destruct (rev s); [exact I|].
    apply negb_true_iff, H2.
  - destruct s; [exact I|]. apply negb_true_iff, H1.
Qed.

Lemma trim_fixed_iff (s : jsstring) : trim s = s <-> isTrimmed s = true.
Proof.
  split; [intros <-; apply trim_isTrimmed | apply isTrimmed_trim].
Qed.

Lemma trim_idempotent (s : jsstring) : trim (trim s) = trim s.
Proof. apply isTrimmed_trim, trim_isTrimmed. Qed.

(** The shape the rewrite of [excludeFileFromGit] relies on. *)
Theorem trim_core (lead core trail : jsstring) :
  allWhiteSpace lead = true -> allWhiteSpace trail = true ->
  isTrimmed core = true ->
  trim (lead ++ core ++ trail) = core.
Proof.
  intros H1 H2 H3. rewrite trim_ws_app, trim_app_ws by assumption.
  apply isTrimmed_trim, H3.
Qed.

Lemma trim_cons_ws (c : char) (s : jsstring) :
  isWhiteSpace c = true -> trim (c :: s) = trim s.
Proof.
  intros H. apply (trim_ws_app [c] s). simpl. rewrite H. reflexivity.
Qed.

Lemma trim_snoc_ws (s : jsstring) (c : char) :
  isWhiteSpace c = true -> trim (s ++ [c]) = trim s.
Proof.
  intros H. apply trim_app_ws. simpl. rewrite H. reflexivity.
Qed.

Lemma trim_noLF (s : jsstring) : ~ In LF s -> ~ In LF (trim s).
Proof.
  intros H K. destruct (trim_decomp s) as (a & b & E & _).
  apply H. rewrite E. apply in_or_app. right. apply in_or_app. left. exact K.
Qed.

(* ================================================================= *)
(** ** Entries of a list of raw lines *)

Lemma keepLine_spec (l : jsstring) :
  keepLine l = true <-> l <> [] /\ hd_error l <> Some HASH.
Proof.
  unfold keepLine. destruct l as [|c r]; simpl.
  - split; [discriminate|intros [H _]; congruence].
  - unfold char_eqb, HASH.
    destruct (N.eqb_spec c 35); destruct r; simpl; split;
      try congruence; try (intros [_ H]; congruence);
      intros _; split; congruence.
Qed.

Lemma loadLines_app (a b : list jsstring) :
  loadLines (a ++ b) = loadLines a ++ loadLines b.
Proof. unfold loadLines. rewrite map_app, filter_app. reflexivity. Qed.

Lemma loadLines_cons (l : jsstring) (ls : list jsstring) :
  loadLines (l :: ls) = loadLines [l] ++ loadLines ls.
Proof. apply (loadLines_app [l] ls). Qed.

Lemma loadLines_blank (l : jsstring) : trim l = [] -> loadLines [l] = [].
Proof. intros H. unfold loadLines. simpl. rewrite H. reflexivity. Qed.

Lemma loadLines_same_trim (l l' : jsstring) :
  trim l = trim l' -> loadLines [l] = loadLines [l'].
Proof. intros H. unfold loadLines. simpl. rewrite H. reflexivity. Qed.

Lemma allWhiteSpace_app (a b : jsstring) :
  allWhiteSpace (a ++ b) = allWhiteSpace a && allWhiteSpace b.
Proof. apply forallb_app. Qed.

(** Whitespace in front of a text changes no entry. *)
Lemma loadLines_split_ws_app (w s : jsstring) :
  allWhiteSpace w = true -> loadLines (split (w ++ s)) = loadLines (split s).
Proof.
  induction w as [|c w IH]; [reflexivity|].
  simpl app. intros H. simpl in H. apply andb_true_iff in H as [Hc Hw].
  destruct (N.eq_dec c LF) as [->|Hn].
  - change (split (LF :: w ++ s)) with ([] :: split (w ++ s)).
    rewrite loadLines_cons, loadLines_blank by reflexivity. apply IH, Hw.
  - rewrite split_cons_other by exact Hn.
    rewrite loadLines_cons.
    rewrite (@loadLines_same_trim _ (hd [] (split (w ++ s))))
      by (apply trim_cons_ws, Hc).
    rewrite <- loadLines_cons, split_hd_tl. apply IH, Hw.
Qed.

Lemma loadLines_split_snoc_ws (s : jsstring) (c : char) :
  isWhiteSpace c = true -> loadLines (split (s ++ [c])) = loadLines (split s).
Proof.
  intros Hc. destruct (N.eq_dec c LF) as [->|Hn].
  - rewrite split_snoc_LF, loadLines_app, loadLines_blank by reflexivity.
    apply app_nil_r.
  - rewrite split_snoc_other by exact Hn.
    rewrite (app_removelast_last [] (split_not_nil s)) at 3.
    rewrite !loadLines_app. f_equal.
    apply loadLines_same_trim, trim_snoc_ws, Hc.
Qed.

(** Whitespace behind a text changes no entry. *)
Lemma loadLines_split_app_ws (w s : jsstring) :
  allWhiteSpace w = true -> loadLines (split (s ++ w)) = loadLines (split s).
Proof.
  revert s. induction w as [|c w IH]; intros s H.
  - rewrite app_nil_r. reflexivity.
  - simpl in H. apply andb_true_iff in H as [Hc Hw].
    change (s ++ c :: w) with (s ++ [c] ++ w). rewrite app_assoc.
    rewrite IH by exact Hw. apply loadLines_split_snoc_ws, Hc.
Qed.

(** Trimming a whole text changes none of its entries. *)
Theorem loadLines_split_trim (c : jsstring) :
  loadLines (split (trim c)) = loadLines (split c).
Proof.
  destruct (trim_decomp c) as (lead & trail & E & H1 & H2).
  rewrite E at 2.
  rewrite loadLines_split_ws_app by exact H1.
  rewrite loadLines_split_app_ws by exact H2. reflexivity.
Qed.

(** Reading back what [join] wrote gives the same entries. *)
Lemma loadLines_split_join (ls : list jsstring) :
  Forall (fun l => ~ In LF l) ls ->
  loadLines (split (join ls)) = loadLines ls.
Proof.
  intros H. destruct ls as [|l ls']; [reflexivity|].
  rewrite split_join; [reflexivity|discriminate|exact H].
Qed.

Lemma loadLines_filter_trim (p : jsstring) (ls : list jsstring) :
  loadLines (filter (fun line => negb (str_eqb (trim line) p)) ls)
  = filter (fun e => negb (str_eqb e p)) (loadLines ls).
Proof.
  unfold loadLines. induction ls as [|l ls IH]; [reflexivity|].
  simpl. destruct (str_eqb (trim l) p) eqn:E; simpl.
  - destruct (keepLine (trim l)); simpl; rewrite ?E; simpl; exact IH.
  - destruct (keepLine (trim l)); simpl; rewrite ?E; simpl; rewrite IH;
      reflexivity.
Qed.

Lemma filter_absent (p : jsstring) (es : list jsstring) :
  ~ In p es -> filter (fun e => negb (str_eqb e p)) es = es.
Proof.
  induction es as [|e es IH]; [reflexivity|]. intros H. simpl.
  destruct (str_eqb e p) eqn:E.
  - apply str_eqb_eq in E. subst. exfalso. apply H. left. reflexivity.
  - simpl. rewrite IH; [reflexivity|]. intros K. apply H. right. exact K.
Qed.

Lemma filter_forall_lines (f : jsstring -> bool) (ls : list jsstring) :
  Forall (fun l => ~ In LF l) ls -> Forall (fun l => ~ In LF l) (filter f ls).
Proof.
  intros H. apply Forall_forall. intros x Hx. apply filter_In in Hx as [Hx _].
  rewrite Forall_forall in H. apply H, Hx.
Qed.

Lemma filter_length_lt (A : Type) (f : A -> bool) (l : list A) (x : A) :
  In x l -> f x = false -> List.length (filter f l) < List.length l.
Proof.
  induction l as [|y l IH]; [intros []|]. intros [->|H] Hx; simpl.
  - rewrite Hx. pose proof (filter_length_le f l). lia.
  - specialize (IH H Hx). destruct (f y); simpl; lia.
Qed.

Lemma filter_length_all (A : Type) (f : A -> bool) (l : list A) :
  (forall x, In x l -> f x = true) -> filter f l = l.
Proof.
  induction l as [|y l IH]; [reflexivity|]. intros H. simpl.
  rewrite (H y) by (left; reflexivity). rewrite IH; [reflexivity|].
  intros x Hx. apply H. right. exact Hx.
Qed.

Lemma loadLines_entry (p : jsstring) :
  trim p = p -> loadLines [p] = if keepLine p then [p] else [].
Proof. intros H. unfold loadLines. simpl. rewrite H. reflexivity. Qed.

Lemma split_appended (c p : jsstring) :
  ~ In LF p ->
  split (appended c p)
  = (if truthy (trim c) then split (trim c) else []) ++ [p; []].
Proof.
  intros Hp. unfold appended. destruct (trim c) as [|a t] eqn:E; simpl truthy; cbv iota.
  - simpl app. rewrite split_snoc_LF, split_noLF by exact Hp. reflexivity.
  - change ((a :: t) ++ [LF] ++ p ++ [LF]) with ((a :: t) ++ LF :: (p ++ [LF])).
    rewrite split_app_LF, split_snoc_LF, (split_noLF p Hp). reflexivity.
Qed.

(** What [excludeFileFromGit] writes lists the old entries and the new
    line. *)
Lemma loadLines_appended (c p : jsstring) :
  ~ In LF p ->
  loadLines (split (appended c p)) = loadLines (split c) ++ loadLines [p].
Proof.
  intros Hp. rewrite split_appended by exact Hp.
  assert (E : loadLines [p; []] = loadLines [p])
    by (unfold loadLines; simpl; destruct (keepLine (trim p)); reflexivity).
  rewrite loadLines_app, <- (loadLines_split_trim c), E.
  destruct (trim c) as [|a t]; reflexivity.
Qed.

(** What [removeFileFromExclude] writes lists the old entries but [e]. *)
Lemma loadLines_keptLines (e c : jsstring) :
  loadLines (split (join (keptLines e c)))
  = filter (fun x => negb (str_eqb x e)) (loadLines (split c)).
Proof.
  unfold keptLines.
  rewrite loadLines_split_join
    by (apply filter_forall_lines, split_lines_noLF).
  apply loadLines_filter_trim.
Qed.

Lemma keptLines_shorter (e c : jsstring) :
  (exists l, In l (split c) /\ trim l = e) ->
  Nat.eqb (List.length (keptLines e c)) (List.length (split c)) = false.
Proof.
  intros (l & Hl & E). apply Nat.eqb_neq. unfold keptLines.
  assert (H := @filter_length_lt _
                 (fun line => negb (str_eqb (trim line) e)) _ l Hl).
  simpl in H. rewrite E, str_eqb_refl in H. specialize (H eq_refl). lia.
Qed.

Lemma keptLines_same (e c : jsstring) :
  (forall l, In l (split c) -> trim l <> e) ->
  keptLines e c = split c.
Proof.
  intros H. unfold keptLines. apply filter_length_all.
  intros l Hl. apply negb_true_iff, str_eqb_neq, H, Hl.
Qed.

(* ================================================================= *)
(** ** Running the functions *)

Ltac run_host :=
  unfold getExcludedFiles, removeFileFromExclude, excludeFileFromGit,
    tryCatch, bind, ret, throw, getWorkspaceFolders, firstFolderPath,
    existsSync, readFileSync, writeFileSync, mkdirSync,
    showErrorMessage, showWarningMessage, showInformationMessage,
    notify, console_error, notified, logged, written, withInfoDir,
    setGitInfo, run, value, entriesOf, priorContent, pathToAdd, appended,
    keptLines, Added, AlreadyPresent, Removed, NotFound, FileMissing;
  cbn -[includes split trim join filter].

Lemma noFolders_false (wf : option (list jsstring)) :
  noFolders wf = false -> exists root rest, wf = Some (root :: rest).
Proof.
  destruct wf as [[|root rest]|]; simpl; try discriminate. eauto.
Qed.

(** [getExcludedFiles] never throws and lists [entriesOf] the world. *)
Lemma getExcludedFiles_value (w : World) :
  value getExcludedFiles w = Ok (entriesOf w).
Proof.
  destruct w as [[[|root rest]|] g ee ns co j]; run_host; try reflexivity.
  destruct g as [|[|c|]]; reflexivity.
Qed.

(** A world with a readable list is left as it is. *)
Lemma getExcludedFiles_run (w : World) :
  gitInfo w <> InfoDir Directory ->
  getExcludedFiles w = (Ok (entriesOf w), w).
Proof.
  destruct w as [[[|root rest]|] g ee ns co j]; simpl; intros Hg; run_host;
    try reflexivity.
  destruct g as [|[|c|]]; simpl; first [reflexivity | congruence].
Qed.

Lemma getExcludedFiles_total (w : World) :
  exists w', getExcludedFiles w = (Ok (entriesOf w), w').
Proof.
  destruct w as [[[|root rest]|] g ee ns co j]; run_host; eauto.
  destruct g as [|[|c|]]; simpl; eauto.
Qed.

Lemma removeFileFromExclude_run (e : jsstring) (w : World)
    (root : jsstring) (rest : list jsstring) (c : jsstring) :
  workspaceFolders w = Some (root :: rest) ->
  gitInfo w = InfoDir (RegularFile c) ->
  removeFileFromExclude e w =
  if Nat.eqb (List.length (keptLines e c)) (List.length (split c))
  then (Ok false, notified (NotFound e) w)
  else (Ok true, notified (Removed e) (written root (join (keptLines e c)) w)).
Proof.
  destruct w as [wf g ee ns co j]; simpl. intros -> ->. run_host.
  match goal with |- context [Nat.eqb ?a ?b] => destruct (Nat.eqb a b) end;
    reflexivity.
Qed.

Lemma removeFileFromExclude_missing (e : jsstring) (w : World)
    (root : jsstring) (rest : list jsstring) :
  workspaceFolders w = Some (root :: rest) ->
  gitInfo w = NoInfoDir \/ gitInfo w = InfoDir Missing ->
  removeFileFromExclude e w = (Ok false, notified FileMissing w).
Proof.
  destruct w as [wf g ee ns co j]; simpl. intros -> [-> | ->]; reflexivity.
Qed.

Lemma removeFileFromExclude_directory (e : jsstring) (w : World)
    (root : jsstring) (rest : list jsstring) :
  workspaceFolders w = Some (root :: rest) ->
  gitInfo w = InfoDir Directory ->
  removeFileFromExclude e w =
  (Ok false, notified (SevError, MsgRemoveFailed EISDIR)
               (logged ErrorRemovingFileFromExclude EISDIR w)).
Proof.
  destruct w as [wf g ee ns co j]; simpl. intros -> ->. reflexivity.
Qed.

Section Add.
Variable path_relative : jsstring -> jsstring -> jsstring.

Lemma excludeFileFromGit_run (filePath : jsstring) (w : World)
    (root : jsstring) (rest : list jsstring) :
  workspaceFolders w = Some (root :: rest) ->
  gitInfo w <> InfoDir Directory ->
  let c := priorContent (gitInfo w) in
  let p := pathToAdd path_relative root filePath in
  excludeFileFromGit path_relative filePath w =
  if includes (split c) p
  then (Ok true, notified (AlreadyPresent p) (withInfoDir root w))
  else (Ok true, notified (Added p)
                   (written root (appended c p) (withInfoDir root w))).
Proof.
  destruct w as [wf g ee ns co j]; simpl. intros -> Hg.
  destruct g as [|[|c|]]; try congruence; run_host;
    match goal with |- context [includes ?a ?b] => destruct (includes a b) end;
    reflexivity.
Qed.

Lemma excludeFileFromGit_directory (filePath : jsstring) (w : World)
    (root : jsstring) (rest : list jsstring) :
  workspaceFolders w = Some (root :: rest) ->
  gitInfo w = InfoDir Directory ->
  excludeFileFromGit path_relative filePath w =
  (Ok false, notified (SevError, MsgExcludeFailed EISDIR)
               (logged ErrorExcludingFileFromGit EISDIR w)).
Proof.
  destruct w as [wf g ee ns co j]; simpl. intros -> ->. reflexivity.
Qed.

End Add.

(** Removing [e] leaves the entries other than [e], in every world. *)
Theorem removeFileFromExclude_entries (e : jsstring) (w : World) :
  entriesOf (run (removeFileFromExclude e) w)
  = filter (fun x => negb (str_eqb x e)) (entriesOf w).
Proof.
  destruct (noFolders (workspaceFolders w)) eqn:Hf.
  - destruct w as [[[|root rest]|] g ee ns co j]; try discriminate; reflexivity.
  - destruct (noFolders_false _ Hf) as (root & rest & Hw).
    destruct (gitInfo w) as [|[|c|]] eqn:Hg.
    + unfold run.
      rewrite (@removeFileFromExclude_missing e w root rest) by auto.
      destruct w; simpl in *; subst. reflexivity.
    + unfold run.
      rewrite (@removeFileFromExclude_missing e w root rest) by auto.
      destruct w; simpl in *; subst. reflexivity.
    + unfold run. rewrite (@removeFileFromExclude_run e w root rest c) by auto.
      destruct (Nat.eqb (List.length (keptLines e c)) (List.length (split c)))
        eqn:El.
      * destruct w; simpl in *; subst. unfold entriesOf; simpl.
        rewrite <- loadLines_keptLines.
        assert (K : keptLines e c = split c).
        { unfold keptLines in *. apply Nat.eqb_eq in El.
          apply filter_length_all. intros l Hl.
          destruct (negb (str_eqb (trim l) e)) eqn:N; [reflexivity|].
          exfalso.
          pose proof (@filter_length_lt _
            (fun line => negb (str_eqb (trim line) e)) _ l Hl N). lia. }
        rewrite K, join_split. reflexivity.
      * destruct w; simpl in *; subst. unfold entriesOf; simpl.
        apply loadLines_keptLines.
    + unfold run.
      rewrite (@removeFileFromExclude_directory e w root rest) by auto.
      destruct w; simpl in *; subst. reflexivity.
Qed.

Lemma count_occ_filter_keep (f : jsstring -> bool) (l : list jsstring)
    (e : jsstring) :
  count_occ jsstring_eq_dec (filter f l) e
  = if f e then count_occ jsstring_eq_dec l e else 0.
Proof.
  induction l as [|x l IH]; simpl; [destruct (f e); reflexivity|].
  destruct (f x) eqn:Fx; simpl; destruct (jsstring_eq_dec x e) as [->|N];
    rewrite IH; try rewrite Fx; reflexivity.
Qed.

Lemma filter_ext_dec (e : jsstring) (ls : list jsstring) :
  filter (fun line => negb (str_eqb (trim line) e)) ls
  = filter (fun line => if jsstring_eq_dec (trim line) e then false else true) ls.
Proof.
  apply filter_ext. intros l.
  destruct (jsstring_eq_dec (trim l) e) as [E|N].
  - apply str_eqb_eq in E. rewrite E. reflexivity.
  - apply str_eqb_neq in N. rewrite N. reflexivity.
Qed.

(* ================================================================= *)
(** ** The list store: load and remove *)

(** C3: with a workspace folder, [getExcludedFiles] returns no entry when
    the exclude file (or its directory) does not exist; when the file has
    content [c] it returns, for the lines [c] is the newline-join of, their
    trimmed values in file order, keeping exactly those that are non-empty
    and do not start with [#], each as often as it occurs (no
    deduplication); all this without touching the world. A directory in
    the file's place is an error swallowed into the empty list. *)
Theorem getExcludedFiles_lists_trimmed_lines
    (w : World) (root : jsstring) (rest : list jsstring) :
  workspaceFolders w = Some (root :: rest) ->
  match gitInfo w with
  | NoInfoDir | InfoDir Missing => getExcludedFiles w = (Ok [], w)
  | InfoDir (RegularFile c) =>
      exists lines entries,
        join lines = c
        /\ Forall (fun l => ~ In LF l) lines
        /\ getExcludedFiles w = (Ok entries, w)
        /\ entries = filter keepLine (map trim lines)
        /\ (forall l, keepLine l = true <-> isEntryLine l)
        /\ (forall e, isEntryLine e ->
              count_occ jsstring_eq_dec entries e
              = count_occ jsstring_eq_dec (map trim lines) e)
  | InfoDir Directory => value getExcludedFiles w = Ok []
  end.
Proof.
  intros Hw. destruct (gitInfo w) as [|[|c|]] eqn:Hg.
  - rewrite getExcludedFiles_run by congruence.
    unfold entriesOf. rewrite Hw, Hg. reflexivity.
  - rewrite getExcludedFiles_run by congruence.
    unfold entriesOf. rewrite Hw, Hg. reflexivity.
  - exists (split c), (loadLines (split c)).
    split; [apply join_split|]. split; [apply split_lines_noLF|].
    split.
    { rewrite getExcludedFiles_run by congruence.
      unfold entriesOf. rewrite Hw, Hg. reflexivity. }
    split; [reflexivity|]. split; [apply keepLine_spec|].
    intros e He. unfold loadLines. rewrite count_occ_filter_keep.
    apply keepLine_spec in He. rewrite He. reflexivity.
  - rewrite getExcludedFiles_value. unfold entriesOf. rewrite Hw, Hg.
    reflexivity.
Qed.

Lemma getExcludedFiles_lists_trimmed_lines_witness :
  let c := join [js "# local"; js "  a.txt "; js ""; js "b.txt"; js "a.txt"] in
  workspaceFolders (fileWorld c) = Some [js "/ws"]
  /\ exists lines entries,
       join lines = c
       /\ Forall (fun l => ~ In LF l) lines
       /\ getExcludedFiles (fileWorld c) = (Ok entries, fileWorld c)
       /\ entries = filter keepLine (map trim lines)
       /\ (forall l, keepLine l = true <-> isEntryLine l)
       /\ (forall e, isEntryLine e ->
             count_occ jsstring_eq_dec entries e
             = count_occ jsstring_eq_dec (map trim lines) e).
Proof.
  intros c. split; [reflexivity|].
  exact (@getExcludedFiles_lists_trimmed_lines (fileWorld c) (js "/ws") []
           eq_refl).
Defined.

Example getExcludedFiles_keeps_duplicates :
  value getExcludedFiles
    (fileWorld (join [js "# local"; js "  a.txt "; js ""; js "b.txt";
                      js "a.txt"]))
  = Ok [js "a.txt"; js "b.txt"; js "a.txt"].
Proof. reflexivity. Qed.

(** C4: on an existing exclude file with content [c], for every target
    [e], [removeFileFromExclude] keeps exactly the raw lines whose trimmed
    value differs from [e], unchanged and in order. If no line trims to
    [e] it warns NotFound, returns [false] and writes nothing. Otherwise
    it writes the newline-join of the kept lines (whose lines, read back,
    are the kept lines whenever one is left) and reports Removed. *)
Theorem removeFileFromExclude_deletes_matching_lines
    (w : World) (root : jsstring) (rest : list jsstring) (c e : jsstring) :
  workspaceFolders w = Some (root :: rest) ->
  gitInfo w = InfoDir (RegularFile c) ->
  let kept :=
    filter (fun l => if jsstring_eq_dec (trim l) e then false else true)
           (split c) in
  ((forall l, In l (split c) -> trim l <> e) ->
   exists w', removeFileFromExclude e w = (Ok false, w')
              /\ notifications w' = notifications w ++ [NotFound e]
              /\ gitInfo w' = gitInfo w
              /\ fsJournal w' = fsJournal w)
  /\ ((exists l, In l (split c) /\ trim l = e) ->
      exists w', removeFileFromExclude e w = (Ok true, w')
                 /\ notifications w' = notifications w ++ [Removed e]
                 /\ gitInfo w' = InfoDir (RegularFile (join kept))
                 /\ fsJournal w'
                    = fsJournal w ++ [WriteFile (ExcludeFilePath root) (join kept)]
                 /\ (kept <> [] -> split (join kept) = kept)).
Proof.
  intros Hw Hg kept.
  assert (Ek : kept = keptLines e c)
    by (symmetry; apply filter_ext_dec).
  rewrite (@removeFileFromExclude_run e w root rest c Hw Hg).
  split.
  - intros Hno. rewrite (keptLines_same e c Hno), Nat.eqb_refl.
    eexists. split; [reflexivity|]. destruct w; auto.
  - intros Hex. rewrite (keptLines_shorter e c Hex).
    eexists. split; [reflexivity|]. rewrite Ek.
    destruct w; simpl. repeat split. intros Hne.
    apply split_join; [exact Hne|].
    apply filter_forall_lines, split_lines_noLF.
Qed.

Lemma removeFileFromExclude_deletes_matching_lines_witness :
  let c := join [js "a.txt"; js "# b.txt"; js " b.txt"; js "c.txt"] in
  let w := fileWorld c in
  let kept :=
    filter (fun l => if jsstring_eq_dec (trim l) (js "b.txt")
                     then false else true)
           (split c) in
  (exists l, In l (split c) /\ trim l = js "b.txt")
  /\ kept = [js "a.txt"; js "# b.txt"; js "c.txt"]
  /\ ((forall l, In l (split c) -> trim l <> js "b.txt") ->
      exists w', removeFileFromExclude (js "b.txt") w = (Ok false, w')
                 /\ notifications w' = notifications w ++ [NotFound (js "b.txt")]
                 /\ gitInfo w' = gitInfo w
                 /\ fsJournal w' = fsJournal w)
  /\ ((exists l, In l (split c) /\ trim l = js "b.txt") ->
      exists w', removeFileFromExclude (js "b.txt") w = (Ok true, w')
                 /\ notifications w' = notifications w ++ [Removed (js "b.txt")]
                 /\ gitInfo w' = InfoDir (RegularFile (join kept))
                 /\ fsJournal w'
                    = fsJournal w
                      ++ [WriteFile (ExcludeFilePath (js "/ws")) (join kept)]
                 /\ (kept <> [] -> split (join kept) = kept)).
Proof.
  intros c w kept.
  split; [exists (js " b.txt"); split; [right; right; left|]; reflexivity|].
  split; [reflexivity|].
  exact (@removeFileFromExclude_deletes_matching_lines w (js "/ws") [] c
           (js "b.txt") eq_refl eq_refl).
Defined.

Example removeFileFromExclude_middle_of_three :
  gitInfo (run (removeFileFromExclude (js "b.txt"))
               (fileWorld (join [js "a.txt"; js "b.txt"; js "c.txt"])))
  = InfoDir (RegularFile (join [js "a.txt"; js "c.txt"])).
Proof. reflexivity. Qed.

Example removeFileFromExclude_last_line_left :
  gitInfo (run (removeFileFromExclude (js "a.txt")) (fileWorld (js "a.txt")))
  = InfoDir (RegularFile (js "")).
Proof. reflexivity. Qed.

(** C7: with a workspace folder and no exclude file (the file or its
    directory is absent), [removeFileFromExclude] warns FileMissing and
    returns [false]; no file or directory is created and nothing is
    written. *)
Theorem removeFileFromExclude_file_missing
    (w : World) (root : jsstring) (rest : list jsstring) (e : jsstring) :
  workspaceFolders w = Some (root :: rest) ->
  gitInfo w = NoInfoDir \/ gitInfo w = InfoDir Missing ->
  exists w', removeFileFromExclude e w = (Ok false, w')
             /\ notifications w' = notifications w ++ [FileMissing]
             /\ gitInfo w' = gitInfo w
             /\ fsJournal w' = fsJournal w
             /\ console w' = console w.
Proof.
  intros Hw Hg.
  rewrite (@removeFileFromExclude_missing e w root rest Hw Hg).
  eexists. split; [reflexivity|]. destruct w; auto.
Qed.

Lemma removeFileFromExclude_file_missing_witness :
  exists w', removeFileFromExclude (js "a.txt")
               (wsWorld NoInfoDir (fun _ => false)) = (Ok false, w')
             /\ notifications w' = [FileMissing]
             /\ gitInfo w' = NoInfoDir
             /\ fsJournal w' = []
             /\ console w' = [].
Proof.
  apply (@removeFileFromExclude_file_missing
           (wsWorld NoInfoDir (fun _ => false)) (js "/ws") [] (js "a.txt")
           eq_refl (or_introl eq_refl)).
Defined.

(* ================================================================= *)
(** ** The list store: add *)

Lemma last_app_nonempty (a p : jsstring) (d : char) :
  p <> [] -> last (a ++ p) d = last p d.
Proof.
  intros Hp. rewrite (app_removelast_last d Hp), app_assoc, !last_last.
  reflexivity.
Qed.

Lemma last_In (p : jsstring) (d : char) : p <> [] -> In (last p d) p.
Proof.
  intros Hp. rewrite (app_removelast_last d Hp) at 2.
  apply in_or_app. right. left. reflexivity.
Qed.

(** C1: the exclude file holds the single line [ a.txt], which trims to
    [a.txt]; adding [/ws/a.txt] does not find it, because [includes]
    compares the raw lines: the file is rewritten with [a.txt] twice and
    the outcome is Added, not AlreadyPresent. *)
Theorem excludeFileFromGit_misses_untrimmed_line :
  let w := fileWorld (js " a.txt") in
  pathToAdd relativeBelow (js "/ws") (js "/ws/a.txt") = js "a.txt"
  /\ (exists l, In l (split (js " a.txt")) /\ trim l = js "a.txt")
  /\ value getExcludedFiles w = Ok [js "a.txt"]
  /\ excludeFileFromGit relativeBelow (js "/ws/a.txt") w
     = (Ok true,
        notified (Added (js "a.txt"))
          (written (js "/ws") (join [js "a.txt"; js "a.txt"; js ""]) w))
  /\ value getExcludedFiles
       (run (excludeFileFromGit relativeBelow (js "/ws/a.txt")) w)
     = Ok [js "a.txt"; js "a.txt"].
Proof.
  repeat split.
  exists (js " a.txt"). split; [left; reflexivity | reflexivity].
Qed.

(** C5: with a workspace folder, for an entry [p] that is one non-empty
    line and is not among the raw lines of the old content (the text of
    the exclude file, [''] without one), [excludeFileFromGit] returns
    [true] with outcome Added and writes a content that is a body followed
    by one newline, the body not ending in a newline, and whose last line
    before that newline is [p]. *)
Theorem excludeFileFromGit_appends_last_line
    (path_relative : jsstring -> jsstring -> jsstring)
    (w : World) (root : jsstring) (rest : list jsstring)
    (filePath : jsstring) :
  workspaceFolders w = Some (root :: rest) ->
  gitInfo w <> InfoDir Directory ->
  let c := priorContent (gitInfo w) in
  let p := pathToAdd path_relative root filePath in
  p <> [] -> ~ In LF p -> ~ In p (split c) ->
  exists newContent body earlier,
    excludeFileFromGit path_relative filePath w
    = (Ok true,
       notified (Added p) (written root newContent (withInfoDir root w)))
    /\ gitInfo (run (excludeFileFromGit path_relative filePath) w)
       = InfoDir (RegularFile newContent)
    /\ newContent = body ++ [LF]
    /\ last body LF <> LF
    /\ split newContent = earlier ++ [p; []].
Proof.
  intros Hw Hg c p Hne Hlf Hnew.
  exists (appended c p),
         (trim c ++ (if truthy (trim c) then [LF] else js "") ++ p),
         (if truthy (trim c) then split (trim c) else []).
  assert (E : excludeFileFromGit path_relative filePath w
              = (Ok true, notified (Added p)
                            (written root (appended c p) (withInfoDir root w)))).
  { rewrite (@excludeFileFromGit_run path_relative filePath w root rest Hw Hg).
    fold c p. apply includes_not_In in Hnew. rewrite Hnew. reflexivity. }
  split; [exact E|]. split.
  { unfold run. rewrite E. reflexivity. }
  split.
  { unfold appended. rewrite <- !app_assoc. reflexivity. }
  split.
  { rewrite app_assoc, last_app_nonempty by exact Hne.
    intros K. apply Hlf. rewrite <- K. apply last_In, Hne. }
  apply split_appended, Hlf.
Qed.

Lemma excludeFileFromGit_appends_last_line_witness :
  let w := fileWorld (join [js "# mine"; js "a.txt"; js ""; js ""]) in
  exists newContent body earlier,
    excludeFileFromGit relativeBelow (js "/ws/sub/b.txt") w
    = (Ok true,
       notified (Added (js "sub/b.txt"))
         (written (js "/ws") newContent (withInfoDir (js "/ws") w)))
    /\ gitInfo (run (excludeFileFromGit relativeBelow (js "/ws/sub/b.txt")) w)
       = InfoDir (RegularFile newContent)
    /\ newContent = body ++ [LF]
    /\ last body LF <> LF
    /\ split newContent = earlier ++ [js "sub/b.txt"; []].
Proof.
  intros w.
  apply (@excludeFileFromGit_appends_last_line relativeBelow w (js "/ws") []
           (js "/ws/sub/b.txt") eq_refl).
  - discriminate.
  - discriminate.
  - vm_compute. intuition discriminate.
  - vm_compute. intuition discriminate.
Defined.

Example excludeFileFromGit_appends_example :
  gitInfo (run (excludeFileFromGit relativeBelow (js "/ws/sub/b.txt"))
               (fileWorld (join [js "# mine"; js "a.txt"; js ""; js ""])))
  = InfoDir (RegularFile (join [js "# mine"; js "a.txt"; js "sub/b.txt"; js ""])).
Proof. reflexivity. Qed.

(** C10: every add that writes replaces the content [c] by its trimmed
    text, a newline, the entry and a newline (the entry and a newline when
    the trimmed text is empty). [c] is a whitespace-only lead, the trimmed
    text and a whitespace-only trail: the lead and the trail are dropped,
    what lies between them is kept as it is. *)
Theorem excludeFileFromGit_rewrites_trimmed
    (path_relative : jsstring -> jsstring -> jsstring)
    (w : World) (root : jsstring) (rest : list jsstring)
    (filePath : jsstring) :
  workspaceFolders w = Some (root :: rest) ->
  gitInfo w <> InfoDir Directory ->
  let c := priorContent (gitInfo w) in
  let p := pathToAdd path_relative root filePath in
  ~ In p (split c) ->
  exists lead core trail,
    c = lead ++ core ++ trail
    /\ allWhiteSpace lead = true /\ allWhiteSpace trail = true
    /\ isTrimmed core = true
    /\ core = trim c
    /\ excludeFileFromGit path_relative filePath w
       = (Ok true,
          notified (Added p)
            (written root
               (match core with
                | [] => p ++ [LF]
                | _ :: _ => core ++ [LF] ++ p ++ [LF]
                end)
               (withInfoDir root w))).
Proof.
  intros Hw Hg c p Hnew.
  destruct (trim_decomp c) as (lead & trail & E & H1 & H2).
  exists lead, (trim c), trail.
  split; [exact E|]. split; [exact H1|]. split; [exact H2|].
  split; [apply trim_isTrimmed|]. split; [reflexivity|].
  rewrite (@excludeFileFromGit_run path_relative filePath w root rest Hw Hg).
  fold c p. apply includes_not_In in Hnew. rewrite Hnew.
  unfold appended. destruct (trim c); reflexivity.
Qed.

Lemma excludeFileFromGit_rewrites_trimmed_witness :
  let c := join [js ""; js "  # mine"; js ""; js "a.txt  "; js ""; js ""] in
  exists lead core trail,
    c = lead ++ core ++ trail
    /\ allWhiteSpace lead = true /\ allWhiteSpace trail = true
    /\ isTrimmed core = true
    /\ core = trim c
    /\ excludeFileFromGit relativeBelow (js "/ws/b.txt") (fileWorld c)
       = (Ok true,
          notified (Added (js "b.txt"))
            (written (js "/ws")
               (match core with
                | [] => js "b.txt" ++ [LF]
                | _ :: _ => core ++ [LF] ++ js "b.txt" ++ [LF]
                end)
               (withInfoDir (js "/ws") (fileWorld c)))).
Proof.
  intros c.
  apply (@excludeFileFromGit_rewrites_trimmed relativeBelow (fileWorld c)
           (js "/ws") [] (js "/ws/b.txt") eq_refl).
  - discriminate.
  - vm_compute. intuition discriminate.
Defined.

Example excludeFileFromGit_drops_outer_blank_lines :
  gitInfo (run (excludeFileFromGit relativeBelow (js "/ws/b.txt"))
               (fileWorld (join [js ""; js "  # mine"; js ""; js "a.txt  ";
                                 js ""; js ""])))
  = InfoDir (RegularFile (join [js "# mine"; js ""; js "a.txt"; js "b.txt";
                                js ""])).
Proof. reflexivity. Qed.

(* ================================================================= *)
(** ** Add after add, remove after add *)

Section AddEntries.
Variable path_relative : jsstring -> jsstring -> jsstring.

(** A line of the file that is the entry itself: nothing is written. *)
Lemma excludeFileFromGit_present (filePath : jsstring) (w : World)
    (root : jsstring) (rest : list jsstring) (c : jsstring) :
  workspaceFolders w = Some (root :: rest) ->
  gitInfo w = InfoDir (RegularFile c) ->
  In (pathToAdd path_relative root filePath) (split c) ->
  excludeFileFromGit path_relative filePath w
  = (Ok true,
     notified (AlreadyPresent (pathToAdd path_relative root filePath)) w).
Proof.
  intros Hw Hg Hin.
  rewrite (@excludeFileFromGit_run path_relative filePath w root rest Hw)
    by congruence.
  rewrite Hg. simpl priorContent. apply includes_In in Hin. rewrite Hin.
  unfold withInfoDir. rewrite Hg. reflexivity.
Qed.

(** The entries after an add, when the exclude file is readable or
    absent. *)
Lemma excludeFileFromGit_entries (filePath : jsstring) (w : World)
    (root : jsstring) (rest : list jsstring) :
  workspaceFolders w = Some (root :: rest) ->
  gitInfo w <> InfoDir Directory ->
  let c := priorContent (gitInfo w) in
  let p := pathToAdd path_relative root filePath in
  ~ In LF p ->
  entriesOf (run (excludeFileFromGit path_relative filePath) w)
  = if includes (split c) p then entriesOf w
    else entriesOf w ++ loadLines [p].
Proof.
  intros Hw Hg c p Hlf. unfold run.
  rewrite (@excludeFileFromGit_run path_relative filePath w root rest Hw Hg).
  fold c p. destruct (includes (split c) p) eqn:Ei.
  - destruct w as [wf g ee ns co j]; simpl in *; subst wf.
    destruct g as [|[|c0|]]; reflexivity || congruence.
  - assert (E : entriesOf w = loadLines (split c)).
    { destruct w as [wf g ee ns co j]; simpl in *; subst wf.
      destruct g as [|[|c0|]]; reflexivity || congruence. }
    rewrite E, <- loadLines_appended by exact Hlf.
    destruct w as [wf g ee ns co j]; simpl in *; subst wf.
    destruct g as [|[|c0|]]; reflexivity || congruence.
Qed.

End AddEntries.

Lemma count_occ_map_trim_exact (p : jsstring) (ls : list jsstring) :
  trim p = p ->
  (forall l, In l ls -> trim l = p -> l = p) ->
  count_occ jsstring_eq_dec (map trim ls) p = count_occ jsstring_eq_dec ls p.
Proof.
  intros Hp. induction ls as [|x ls IH]; intros H; [reflexivity|].
  simpl. rewrite IH by (intros l Hl; apply H; right; exact Hl).
  destruct (jsstring_eq_dec (trim x) p) as [E|N];
    destruct (jsstring_eq_dec x p) as [E'|N']; try reflexivity.
  - exfalso. apply N'. apply H; [left; reflexivity | exact E].
  - exfalso. apply N. rewrite E'. exact Hp.
Qed.

Lemma count_occ_loadLines_exact (p : jsstring) (ls : list jsstring) :
  isEntryLine p -> trim p = p ->
  (forall l, In l ls -> trim l = p -> l = p) ->
  count_occ jsstring_eq_dec (loadLines ls) p = count_occ jsstring_eq_dec ls p.
Proof.
  intros He Hp H. unfold loadLines. rewrite count_occ_filter_keep.
  apply keepLine_spec in He. rewrite He.
  apply count_occ_map_trim_exact; assumption.
Qed.

(** C2, the claim as stated fails: [a.txt] is already listed, the add
    writes nothing, the remove deletes the line, and the entry that was
    there before the add is gone. *)
Lemma add_then_remove_drops_listed_entry :
  let w := fileWorld (js "a.txt") in
  let w2 := run (removeFileFromExclude (js "a.txt"))
                (run (excludeFileFromGit relativeBelow (js "/ws/a.txt")) w) in
  ~ (forall before after,
       value getExcludedFiles w = Ok before ->
       value getExcludedFiles w2 = Ok after ->
       sameEntrySet after before).
Proof.
  intros w w2 H.
  specialize (H [js "a.txt"] [] eq_refl eq_refl).
  destruct (H (js "a.txt")) as [_ K]. apply K. left. reflexivity.
Qed.

(** C2, amended: with a workspace folder, for an entry [p] that is a
    single trimmed line and is not in the list [getExcludedFiles] returns,
    [excludeFileFromGit] followed by [removeFileFromExclude p] leaves
    [getExcludedFiles] returning the very same list, order included. *)
Theorem add_then_remove_restores_entries
    (path_relative : jsstring -> jsstring -> jsstring)
    (w : World) (root : jsstring) (rest : list jsstring)
    (filePath : jsstring) (before : list jsstring) :
  workspaceFolders w = Some (root :: rest) ->
  let p := pathToAdd path_relative root filePath in
  ~ In LF p -> trim p = p ->
  value getExcludedFiles w = Ok before ->
  ~ In p before ->
  let w1 := run (excludeFileFromGit path_relative filePath) w in
  let w2 := run (removeFileFromExclude p) w1 in
  value getExcludedFiles w2 = Ok before.
Proof.
  intros Hw p Hlf Htrim Hb Hnot w1 w2.
  rewrite getExcludedFiles_value in Hb. injection Hb as Hb.
  rewrite getExcludedFiles_value. f_equal.
  unfold w2. rewrite removeFileFromExclude_entries.
  assert (E : entriesOf w1 = before \/ entriesOf w1 = before ++ loadLines [p]).
  { destruct (gitInfo w) as [|[|c|]] eqn:Hg.
    - unfold w1.
      rewrite (@excludeFileFromGit_entries path_relative filePath w root rest)
        by (assumption || congruence).
      fold p. rewrite Hb. destruct (includes _ p); auto.
    - unfold w1.
      rewrite (@excludeFileFromGit_entries path_relative filePath w root rest)
        by (assumption || congruence).
      fold p. rewrite Hb. destruct (includes _ p); auto.
    - unfold w1.
      rewrite (@excludeFileFromGit_entries path_relative filePath w root rest)
        by (assumption || congruence).
      fold p. rewrite Hb. destruct (includes _ p); auto.
    - left. unfold w1, run.
      rewrite (@excludeFileFromGit_directory path_relative filePath w root
                 rest Hw Hg).
      rewrite <- Hb. destruct w; simpl in *; subst. reflexivity. }
  destruct E as [-> | ->].
  - apply filter_absent, Hnot.
  - rewrite filter_app, filter_absent by exact Hnot.
    rewrite loadLines_entry by exact Htrim.
    destruct (keepLine p); simpl; rewrite ?str_eqb_refl; simpl;
      apply app_nil_r.
Qed.

Lemma add_then_remove_restores_entries_witness :
  let w := fileWorld (join [js "# mine"; js " a.txt"; js ""]) in
  let w2 := run (removeFileFromExclude (js "sub/b.txt"))
                (run (excludeFileFromGit relativeBelow (js "/ws/sub/b.txt")) w) in
  value getExcludedFiles w = Ok [js "a.txt"]
  /\ value getExcludedFiles w2 = Ok [js "a.txt"].
Proof.
  intros w w2. split; [reflexivity|].
  apply (@add_then_remove_restores_entries relativeBelow w (js "/ws") []
           (js "/ws/sub/b.txt") [js "a.txt"] eq_refl).
  - vm_compute. intuition discriminate.
  - reflexivity.
  - reflexivity.
  - vm_compute. intuition discriminate.
Defined.

(** The entry has to be trimmed for the round trip: one with a trailing
    space is appended and then not found by the remove, which compares
    trimmed lines with the untrimmed target. *)
Example add_then_remove_untrimmed_entry_stays :
  let w := fileWorld (js "") in
  let w1 := run (excludeFileFromGit relativeBelow (js "/ws/a.txt ")) w in
  removeFileFromExclude (js "a.txt ") w1
  = (Ok false, notified (NotFound (js "a.txt ")) w1)
  /\ value getExcludedFiles w = Ok []
  /\ value getExcludedFiles w1 = Ok [js "a.txt"].
Proof. repeat split. Qed.

(** C6, the claim as stated fails: the file lists [a.txt] twice; both adds
    find it and write nothing, and it is still listed twice. *)
Lemma add_twice_keeps_earlier_duplicates :
  let w := fileWorld (join [js "a.txt"; js "a.txt"]) in
  let w2 := run (excludeFileFromGit relativeBelow (js "/ws/a.txt"))
                (run (excludeFileFromGit relativeBelow (js "/ws/a.txt")) w) in
  ~ (forall entries,
       value getExcludedFiles w2 = Ok entries ->
       count_occ jsstring_eq_dec entries (js "a.txt") = 1).
Proof.
  intros w w2 H.
  specialize (H [js "a.txt"; js "a.txt"] eq_refl).
  vm_compute in H. discriminate.
Qed.

(** C6, amended: with a workspace folder and an exclude file that is
    readable or absent, for an entry [p] that is a single trimmed,
    non-empty, non-comment line, if the file has at most one line equal to
    [p] and no line that differs from [p] only by surrounding whitespace,
    then after two adds of [p] the list [getExcludedFiles] returns has [p]
    exactly once, and the second add reports AlreadyPresent, returns
    [true] and leaves the file and the journal of writes as the first add
    left them. *)
Theorem add_twice_lists_once
    (path_relative : jsstring -> jsstring -> jsstring)
    (w : World) (root : jsstring) (rest : list jsstring)
    (filePath : jsstring) :
  workspaceFolders w = Some (root :: rest) ->
  gitInfo w <> InfoDir Directory ->
  let c := priorContent (gitInfo w) in
  let p := pathToAdd path_relative root filePath in
  isEntryLine p -> trim p = p -> ~ In LF p ->
  (forall l, In l (split c) -> trim l = p -> l = p) ->
  count_occ jsstring_eq_dec (split c) p <= 1 ->
  let w1 := run (excludeFileFromGit path_relative filePath) w in
  exists w2 entries,
    excludeFileFromGit path_relative filePath w1 = (Ok true, w2)
    /\ notifications w2 = notifications w1 ++ [AlreadyPresent p]
    /\ gitInfo w2 = gitInfo w1
    /\ fsJournal w2 = fsJournal w1
    /\ value getExcludedFiles w2 = Ok entries
    /\ count_occ jsstring_eq_dec entries p = 1.
Proof.
  intros Hw Hg c p He Htrim Hlf Hexact Hone w1.
  assert (Hstate : exists c1,
             workspaceFolders w1 = Some (root :: rest)
             /\ gitInfo w1 = InfoDir (RegularFile c1)
             /\ In p (split c1)
             /\ count_occ jsstring_eq_dec (loadLines (split c1)) p = 1).
  { unfold w1, run.
    rewrite (@excludeFileFromGit_run path_relative filePath w root rest Hw Hg).
    fold c p. destruct (includes (split c) p) eqn:Ei.
    - apply includes_In in Ei.
      destruct w as [wf g ee ns co j]; simpl in *; subst wf.
      destruct g as [|[|c0|]]; try congruence.
      + exfalso. destruct Ei as [E|[]]. destruct He as [He _]. congruence.
      + exfalso. destruct Ei as [E|[]]. destruct He as [He _]. congruence.
      + exists c0. simpl. repeat split; try assumption.
        rewrite count_occ_loadLines_exact by assumption.
        apply (count_occ_In jsstring_eq_dec) in Ei.
        unfold c in *. simpl priorContent in *. lia.
    - apply includes_not_In in Ei.
      exists (appended c p).
      assert (Hin : In p (split (appended c p))).
      { rewrite split_appended by exact Hlf.
        apply in_or_app. right. left. reflexivity. }
      assert (Hcount :
                count_occ jsstring_eq_dec (loadLines (split (appended c p))) p
                = 1).
      { rewrite loadLines_appended by exact Hlf.
        rewrite count_occ_app, count_occ_loadLines_exact by assumption.
        rewrite (proj1 (count_occ_not_In jsstring_eq_dec _ _) Ei).
        rewrite loadLines_entry by exact Htrim.
        apply keepLine_spec in He. rewrite He. simpl.
        destruct (jsstring_eq_dec p p); congruence. }
      destruct w as [wf g ee ns co j]; simpl in *; subst wf.
      destruct g as [|[|c0|]]; try congruence; simpl; auto. }
  destruct Hstate as (c1 & Hw1 & Hg1 & Hin & Hcount).
  exists (notified (AlreadyPresent p) w1), (loadLines (split c1)).
  split.
  { apply (@excludeFileFromGit_present path_relative filePath w1 root rest c1);
      assumption. }
  split; [destruct w1; reflexivity|].
  split; [destruct w1; reflexivity|].
  split; [destruct w1; reflexivity|].
  split; [|exact Hcount].
  rewrite getExcludedFiles_value.
  destruct w1 as [wf g ee ns co j]; simpl in *; subst. reflexivity.
Qed.

Lemma add_twice_lists_once_witness :
  let w := wsWorld NoInfoDir (fun _ => false) in
  let w1 := run (excludeFileFromGit relativeBelow (js "/ws/a.txt")) w in
  exists w2 entries,
    excludeFileFromGit relativeBelow (js "/ws/a.txt") w1 = (Ok true, w2)
    /\ notifications w2 = notifications w1 ++ [AlreadyPresent (js "a.txt")]
    /\ gitInfo w2 = gitInfo w1
    /\ fsJournal w2 = fsJournal w1
    /\ value getExcludedFiles w2 = Ok entries
    /\ count_occ jsstring_eq_dec entries (js "a.txt") = 1.
Proof.
  intros w w1.
  apply (@add_twice_lists_once relativeBelow w (js "/ws") [] (js "/ws/a.txt")
           eq_refl).
  - discriminate.
  - split; discriminate.
  - reflexivity.
  - vm_compute. intuition discriminate.
  - intros l [<-|[]]. vm_compute. discriminate.
  - vm_compute. lia.
Defined.

(* ================================================================= *)
(** ** The tree: placeholder and sorted items *)

Section SortFacts.
Variable A : Type.
Variable cmp : A -> A -> Z.

Lemma insert_perm (x : A) (l : list A) : Permutation (insert cmp x l) (x :: l).
Proof.
  induction l as [|y l IH]; simpl; [apply Permutation_refl|].
  destruct (cmp x y <=? 0)%Z; [apply Permutation_refl|].
  eapply perm_trans; [apply perm_skip, IH | apply perm_swap].
Qed.

Lemma sort_perm (l : list A) : Permutation (sort cmp l) l.
Proof.
  induction l as [|x l IH]; simpl; [apply perm_nil|].
  eapply perm_trans; [apply insert_perm | apply perm_skip, IH].
Qed.

Hypothesis cmp_consistent : consistentComparator cmp.

Lemma insert_sorted (x : A) (l : list A) :
  StronglySorted (fun a b => (cmp a b <= 0)%Z) l ->
  StronglySorted (fun a b => (cmp a b <= 0)%Z) (insert cmp x l).
Proof.
  destruct cmp_consistent as [Htot Htrans].
  induction l as [|y l IH]; intros Hs; simpl.
  - constructor; constructor.
  - inversion Hs as [|? ? Hl Hy]; subst.
    destruct (cmp x y <=? 0)%Z eqn:E.
    + apply Z.leb_le in E. constructor; [exact Hs|].
      constructor; [exact E|].
      eapply Forall_impl; [|exact Hy]. intros z Hz. eapply Htrans; eauto.
    + apply Z.leb_gt in E. constructor; [apply IH, Hl|].
      eapply Permutation_Forall;
        [apply Permutation_sym, insert_perm|].
      constructor; [apply Htot, E | exact Hy].
Qed.

Lemma sort_sorted (l : list A) :
  StronglySorted (fun a b => (cmp a b <= 0)%Z) (sort cmp l).
Proof.
  induction l as [|x l IH]; simpl; [constructor|].
  apply insert_sorted, IH.
Qed.

End SortFacts.

Lemma codeUnitCompare_antisym (a b : jsstring) :
  codeUnitCompare b a = (- codeUnitCompare a b)%Z.
Proof.
  revert b. induction a as [|x a IH]; intros [|y b]; simpl; try reflexivity.
  rewrite (N.compare_antisym x y).
  destruct (N.compare x y); simpl; auto.
Qed.

Lemma codeUnitCompare_le_trans (a b c : jsstring) :
  (codeUnitCompare a b <= 0)%Z -> (codeUnitCompare b c <= 0)%Z ->
  (codeUnitCompare a c <= 0)%Z.
Proof.
  revert b c. induction a as [|x a IH]; intros [|y b] [|z c]; simpl;
    try lia.
  destruct (N.compare_spec x y) as [->|Hxy|Hxy]; try lia.
  - destruct (N.compare_spec y z) as [->|Hyz|Hyz]; try lia. apply IH.
  - destruct (N.compare_spec y z) as [->|Hyz|Hyz]; try lia.
    + intros _ _. destruct (N.compare_spec x z); lia.
    + intros _ _. destruct (N.compare_spec x z); try lia; subst; lia.
Qed.

Lemma codeUnitCompare_consistent : consistentComparator codeUnitCompare.
Proof.
  split.
  - intros a b H. rewrite codeUnitCompare_antisym. lia.
  - apply codeUnitCompare_le_trans.
Qed.

Lemma forEachPush_items (root : jsstring) (entries : list jsstring)
    (w : World) :
  exists items,
    forEachPush (excludedFileItem root) entries w = (Ok items, w)
    /\ map label items = entries.
Proof.
  induction entries as [|e es (items & E & Hl)].
  - exists []. split; reflexivity.
  - eexists (_ :: items). simpl. unfold bind at 1.
    unfold excludedFileItem at 1. unfold bind at 1, existsSync, ret at 1.
    unfold bind at 1. rewrite E. split; [reflexivity|].
    simpl. rewrite Hl. reflexivity.
Qed.

Section Tree.
Variable localeCompare : jsstring -> jsstring -> Z.

Lemma getChildren_empty (w w1 : World) :
  getExcludedFiles w = (Ok [], w1) ->
  getChildren localeCompare None w = (Ok [placeholderItem], w1).
Proof.
  intros E. unfold getChildren, bind. rewrite E. reflexivity.
Qed.

Lemma getChildren_items (w : World) :
  entriesOf w <> [] ->
  exists items,
    map label items = entriesOf w
    /\ getChildren localeCompare None w
       = (Ok (sort (fun a b => localeCompare (label a) (label b)) items), w).
Proof.
  intros Hne.
  assert (Hf : noFolders (workspaceFolders w) = false).
  { unfold entriesOf in Hne. destruct (noFolders (workspaceFolders w));
      congruence. }
  destruct (noFolders_false _ Hf) as (root & rest & Hw).
  assert (Hg : gitInfo w <> InfoDir Directory).
  { intros K. apply Hne. unfold entriesOf. rewrite K, Hf. reflexivity. }
  destruct (forEachPush_items root (entriesOf w) w) as (items & E & Hl).
  exists items. split; [exact Hl|].
  assert (Hlen : Nat.eqb (List.length (entriesOf w)) 0 = false)
    by (destruct (entriesOf w); [congruence|reflexivity]).
  unfold getChildren. unfold bind at 1.
  rewrite (getExcludedFiles_run w Hg), Hlen.
  unfold bind at 1, getWorkspaceFolders. rewrite Hw.
  cbn [undefinedFolders firstFolderPath bind ret].
  unfold bind. rewrite E. reflexivity.
Qed.

(** C8, amended: without a workspace folder the root query returns the
    single placeholder node, whatever exists on disk: no item is built for
    any entry and nothing in the world changes. *)
Theorem getChildren_without_workspace (w : World) :
  noFolders (workspaceFolders w) = true ->
  getChildren localeCompare None w = (Ok [placeholderItem], w)
  /\ command placeholderItem = None.
Proof.
  intros Hf. split; [|reflexivity].
  apply getChildren_empty.
  destruct w as [[[|root rest]|] g ee ns co j]; try discriminate; reflexivity.
Qed.

(** C9: for a consistent [localeCompare], the root query returns, when
    [getExcludedFiles] returns no entry, exactly the placeholder node,
    which has no command; and when it returns entries, one node per entry
    (the labels are a permutation of the entries) sorted by
    [localeCompare] of the labels. *)
Theorem getChildren_placeholder_or_sorted (w : World) :
  consistentComparator localeCompare ->
  exists entries w1 nodes,
    getExcludedFiles w = (Ok entries, w1)
    /\ getChildren localeCompare None w = (Ok nodes, w1)
    /\ (entries = [] ->
        nodes = [placeholderItem]
        /\ List.length nodes = 1
        /\ Forall (fun n => command n = None) nodes)
    /\ (entries <> [] ->
        StronglySorted
          (fun a b => (localeCompare (label a) (label b) <= 0)%Z) nodes
        /\ Permutation (map label nodes) entries).
Proof.
  intros [Htot Htrans].
  destruct (entriesOf w) as [|e es] eqn:Ee.
  - destruct (getExcludedFiles_total w) as (w1 & E). rewrite Ee in E.
    exists [], w1, [placeholderItem].
    split; [exact E|]. split; [apply getChildren_empty, E|].
    split; [|congruence].
    intros _. repeat split. repeat constructor.
  - assert (Hne : entriesOf w <> []) by congruence.
    destruct (getChildren_items w Hne) as (items & Hl & E).
    assert (Hg : gitInfo w <> InfoDir Directory).
    { intros K. apply Hne. unfold entriesOf. rewrite K.
      destruct (noFolders (workspaceFolders w)); reflexivity. }
    exists (entriesOf w), w,
           (sort (fun a b => localeCompare (label a) (label b)) items).
    rewrite Ee in *.
    split; [rewrite (getExcludedFiles_run w Hg), Ee; reflexivity|].
    split; [exact E|]. split; [congruence|].
    intros _. split.
    + apply sort_sorted. split.
      * intros a b. apply Htot.
      * intros a b c. apply Htrans.
    + rewrite <- Hl. apply Permutation_map, sort_perm.
Qed.

End Tree.

(** C8, the claim as stated fails: with no workspace folder the root query
    returns one node, the placeholder, not the empty array. *)
Lemma getChildren_without_workspace_not_empty :
  value (getChildren codeUnitCompare None)
        (mkWorld None NoInfoDir (fun _ => false) [] [] [])
  <> Ok [].
Proof. vm_compute. discriminate. Qed.

Lemma getChildren_without_workspace_witness :
  noFolders (workspaceFolders (mkWorld None NoInfoDir (fun _ => true) [] [] []))
  = true
  /\ getChildren codeUnitCompare None
       (mkWorld None NoInfoDir (fun _ => true) [] [] [])
     = (Ok [placeholderItem], mkWorld None NoInfoDir (fun _ => true) [] [] [])
  /\ command placeholderItem = None.
Proof.
  split; [reflexivity|].
  apply (@getChildren_without_workspace codeUnitCompare
           (mkWorld None NoInfoDir (fun _ => true) [] [] []) eq_refl).
Defined.

Lemma getChildren_placeholder_or_sorted_witness :
  consistentComparator codeUnitCompare
  /\ exists entries w1 nodes,
       getExcludedFiles
         (fileWorld (join [js "zebra.txt"; js "apple.txt"; js "Banana.txt"]))
       = (Ok entries, w1)
       /\ getChildren codeUnitCompare None
            (fileWorld (join [js "zebra.txt"; js "apple.txt"; js "Banana.txt"]))
          = (Ok nodes, w1)
       /\ (entries = [] ->
           nodes = [placeholderItem]
           /\ List.length nodes = 1
           /\ Forall (fun n => command n = None) nodes)
       /\ (entries <> [] ->
           StronglySorted
             (fun a b => (codeUnitCompare (label a) (label b) <= 0)%Z) nodes
           /\ Permutation (map label nodes) entries).
Proof.
  split; [exact codeUnitCompare_consistent|].
  apply (@getChildren_placeholder_or_sorted codeUnitCompare
           (fileWorld (join [js "zebra.txt"; js "apple.txt"; js "Banana.txt"]))
           codeUnitCompare_consistent).
Defined.

Example getChildren_sorts_labels :
  match value (getChildren codeUnitCompare None)
          (fileWorld (join [js "zebra.txt"; js "apple.txt"; js "Banana.txt"]))
  with
  | Ok nodes => map label nodes
  | Throw _ => []
  end = [js "Banana.txt"; js "apple.txt"; js "zebra.txt"].
Proof. reflexivity. Qed.

(** A child of a node has no children. *)
Example getChildren_of_item (w : World) :
  getChildren codeUnitCompare (Some placeholderItem) w = (Ok [], w).
Proof. reflexivity. Qed.

(* ================================================================= *)
(** ** Further properties of the list store *)

Lemma loadLines_wellformed (ls : list jsstring) :
  Forall (fun l => ~ In LF l) ls ->
  Forall (fun e => isEntryLine e /\ isTrimmed e = true /\ ~ In LF e)
         (loadLines ls).
Proof.
  intros H. apply Forall_forall. intros e He.
  unfold loadLines in He. apply filter_In in He as [Hm Hk].
  apply in_map_iff in Hm as (l & <- & Hl).
  split; [apply keepLine_spec, Hk|]. split; [apply trim_isTrimmed|].
  apply trim_noLF. rewrite Forall_forall in H. apply H, Hl.
Qed.

Lemma entriesOf_wellformed (w : World) :
  Forall (fun e => isEntryLine e /\ isTrimmed e = true /\ ~ In LF e)
         (entriesOf w).
Proof.
  unfold entriesOf. destruct (noFolders (workspaceFolders w)); [constructor|].
  destruct (gitInfo w) as [|[|c|]]; try constructor.
  apply loadLines_wellformed, split_lines_noLF.
Qed.

(** X1: Every entry [getExcludedFiles] returns, in every world, is a single
    line without a line feed, has no whitespace at either end, is not
    empty and does not start with [#]. *)
Theorem getExcludedFiles_entries_wellformed (w : World) :
  exists entries,
    value getExcludedFiles w = Ok entries
    /\ Forall (fun e => isEntryLine e /\ isTrimmed e = true /\ ~ In LF e)
              entries.
Proof.
  exists (entriesOf w). split;
    [apply getExcludedFiles_value | apply entriesOf_wellformed].
Qed.

Lemma getExcludedFiles_effects (w : World) :
  exists w',
    getExcludedFiles w = (Ok (entriesOf w), w')
    /\ workspaceFolders w' = workspaceFolders w
    /\ gitInfo w' = gitInfo w
    /\ entryExists w' = entryExists w
    /\ fsJournal w' = fsJournal w
    /\ notifications w' = notifications w
    /\ (console w' = console w
        \/ (entriesOf w = []
            /\ gitInfo w = InfoDir Directory
            /\ console w' = console w ++ [(ErrorReadingExcludedFiles, EISDIR)])).
Proof.
  destruct w as [[[|root rest]|] g ee ns co j]; run_host;
    try (eexists; split; [reflexivity|]; simpl; auto 10).
  destruct g as [|[|c|]]; eexists; (split; [reflexivity|]); simpl; auto 10.
Qed.

(** X2: [getExcludedFiles] never throws, shows no message and changes nothing
    on disk; the one thing it may do is log a read error to the console,
    and then it returns the empty list. *)
Theorem getExcludedFiles_is_silent (w : World) :
  exists entries w',
    getExcludedFiles w = (Ok entries, w')
    /\ workspaceFolders w' = workspaceFolders w
    /\ gitInfo w' = gitInfo w
    /\ fsJournal w' = fsJournal w
    /\ notifications w' = notifications w
    /\ (console w' = console w
        \/ (entries = []
            /\ gitInfo w = InfoDir Directory
            /\ console w' = console w ++ [(ErrorReadingExcludedFiles, EISDIR)])).
Proof.
  destruct (getExcludedFiles_effects w) as (w' & E & H1 & H2 & _ & H3 & H4 & H5).
  exists (entriesOf w), w'. auto 10.
Qed.

Lemma removeFileFromExclude_noFolders (e : jsstring) (w : World) :
  noFolders (workspaceFolders w) = true ->
  removeFileFromExclude e w = (Ok false, notified (SevError, MsgNoWorkspace) w).
Proof.
  destruct w as [[[|root rest]|] g ee ns co j]; try discriminate; reflexivity.
Qed.

Lemma filter_neq_dec (e : jsstring) (es : list jsstring) :
  filter (fun x => negb (str_eqb x e)) es
  = filter (fun x => if jsstring_eq_dec x e then false else true) es.
Proof.
  apply filter_ext. intros x. destruct (jsstring_eq_dec x e) as [E|N].
  - apply str_eqb_eq in E. rewrite E. reflexivity.
  - apply str_eqb_neq in N. rewrite N. reflexivity.
Qed.

(** X3: In every world, after [removeFileFromExclude e] the list
    [getExcludedFiles] returns is the list it returned before without the
    occurrences of [e]: [e] is no longer listed, the other entries keep
    their order and number, and a target that was not listed (an empty
    one, a comment, an untrimmed one) changes nothing in the list. *)
Theorem removeFileFromExclude_keeps_other_entries (e : jsstring) (w : World) :
  exists before after,
    value getExcludedFiles w = Ok before
    /\ value getExcludedFiles (run (removeFileFromExclude e) w) = Ok after
    /\ after = filter (fun x => if jsstring_eq_dec x e then false else true)
                      before
    /\ ~ In e after
    /\ (~ In e before -> after = before).
Proof.
  exists (entriesOf w), (entriesOf (run (removeFileFromExclude e) w)).
  split; [apply getExcludedFiles_value|].
  split; [apply getExcludedFiles_value|].
  rewrite removeFileFromExclude_entries.
  split; [apply filter_neq_dec|]. split.
  - intros H. apply filter_In in H as [_ H].
    rewrite str_eqb_refl in H. discriminate.
  - apply filter_absent.
Qed.

Lemma keptLines_join_changes (e c : jsstring) :
  e <> [] ->
  Nat.eqb (List.length (keptLines e c)) (List.length (split c)) = false ->
  join (keptLines e c) <> c.
Proof.
  intros He Hl K. apply Nat.eqb_neq in Hl. apply Hl.
  destruct (keptLines e c) as [|k ks] eqn:Ek.
  - exfalso. simpl in K. subst c. unfold keptLines in Ek.
    destruct e as [|x e]; [congruence|]. discriminate Ek.
  - rewrite <- K. rewrite split_join; [reflexivity|discriminate|].
    rewrite <- Ek. apply filter_forall_lines, split_lines_noLF.
Qed.

Lemma removeFileFromExclude_outcome (e : jsstring) (w : World) :
  exists b w',
    removeFileFromExclude e w = (Ok b, w')
    /\ (b = false -> gitInfo w' = gitInfo w /\ fsJournal w' = fsJournal w)
    /\ (b = true ->
        exists root content,
          hd_error (match workspaceFolders w with Some l => l | None => [] end)
          = Some root
          /\ fsJournal w'
             = fsJournal w ++ [WriteFile (ExcludeFilePath root) content]
          /\ gitInfo w' = InfoDir (RegularFile content)
          /\ (e <> [] -> gitInfo w' <> gitInfo w)).
Proof.
  destruct (noFolders (workspaceFolders w)) eqn:Hf.
  - rewrite (removeFileFromExclude_noFolders e w Hf).
    do 2 eexists. split; [reflexivity|]. split; [|discriminate].
    intros _. destruct w; auto.
  - destruct (noFolders_false _ Hf) as (root & rest & Hw).
    destruct (gitInfo w) as [|[|c|]] eqn:Hg.
    + rewrite (removeFileFromExclude_missing e w root rest Hw) by auto.
      do 2 eexists. split; [reflexivity|]. split; [|discriminate].
      intros _. destruct w; simpl in *; auto.
    + rewrite (removeFileFromExclude_missing e w root rest Hw) by auto.
      do 2 eexists. split; [reflexivity|]. split; [|discriminate].
      intros _. destruct w; simpl in *; auto.
    + rewrite (removeFileFromExclude_run e w root rest c Hw Hg).
      destruct (Nat.eqb (List.length (keptLines e c)) (List.length (split c)))
        eqn:El.
      * do 2 eexists. split; [reflexivity|]. split; [|discriminate].
        intros _. destruct w; simpl in *; auto.
      * do 2 eexists. split; [reflexivity|]. split; [discriminate|].
        intros _. exists root, (join (keptLines e c)).
        rewrite Hw. split; [reflexivity|].
        destruct w; simpl in *. split; [reflexivity|]. split; [reflexivity|].
        intros He K. subst. injection K as K.
        exact (keptLines_join_changes e c He El K).
    + rewrite (removeFileFromExclude_directory e w root rest Hw Hg).
      do 2 eexists. split; [reflexivity|]. split; [|discriminate].
      intros _. destruct w; simpl in *; auto.
Qed.

(** X4: [removeFileFromExclude] never throws, and its result tells whether the
    file was rewritten: [false] leaves the file and the journal of writes
    as they were; [true] means exactly one write of the exclude file, and
    for a non-empty target the written content differs from the old
    one. *)
Theorem removeFileFromExclude_result_reflects_write (e : jsstring) (w : World) :
  exists b w',
    removeFileFromExclude e w = (Ok b, w')
    /\ (b = false -> gitInfo w' = gitInfo w /\ fsJournal w' = fsJournal w)
    /\ (b = true ->
        exists root content,
          hd_error (match workspaceFolders w with Some l => l | None => [] end)
          = Some root
          /\ fsJournal w'
             = fsJournal w ++ [WriteFile (ExcludeFilePath root) content]
          /\ gitInfo w' = InfoDir (RegularFile content)
          /\ (e <> [] -> gitInfo w' <> gitInfo w)).
Proof. exact (removeFileFromExclude_outcome e w). Qed.


Lemma keptLines_settled (e c : jsstring) :
  e <> [] ->
  keptLines e (join (keptLines e c)) = split (join (keptLines e c)).
Proof.
  intros He. apply keptLines_same. intros l Hl.
  destruct (keptLines e c) as [|k ks] eqn:Ek.
  - simpl in Hl. destruct Hl as [<-|[]]. intros K. apply He.
    rewrite <- K. reflexivity.
  - rewrite split_join in Hl;
      [|discriminate
       |rewrite <- Ek; apply filter_forall_lines, split_lines_noLF].
    rewrite <- Ek in Hl. unfold keptLines in Hl.
    apply filter_In in Hl as [_ Hl].
    apply negb_true_iff, str_eqb_neq in Hl. exact Hl.
Qed.

(** X5: On an existing exclude file, a second [removeFileFromExclude] of the
    same non-empty target finds nothing: it warns NotFound, returns
    [false] and writes nothing, whatever the first call did. *)
Theorem removeFileFromExclude_twice_not_found
    (w : World) (root : jsstring) (rest : list jsstring) (c e : jsstring) :
  workspaceFolders w = Some (root :: rest) ->
  gitInfo w = InfoDir (RegularFile c) ->
  e <> [] ->
  let w1 := run (removeFileFromExclude e) w in
  removeFileFromExclude e w1 = (Ok false, notified (NotFound e) w1)
  /\ gitInfo (run (removeFileFromExclude e) w1) = gitInfo w1
  /\ fsJournal (run (removeFileFromExclude e) w1) = fsJournal w1.
Proof.
  intros Hw Hg He w1.
  assert (E : removeFileFromExclude e w1
              = (Ok false, notified (NotFound e) w1)).
  { unfold w1, run.
    rewrite (removeFileFromExclude_run e w root rest c Hw Hg).
    destruct (Nat.eqb (List.length (keptLines e c)) (List.length (split c)))
      eqn:El; simpl snd.
    - rewrite (removeFileFromExclude_run e _ root rest c);
        [|destruct w; exact Hw|destruct w; exact Hg].
      rewrite El. reflexivity.
    - rewrite (removeFileFromExclude_run e _ root rest (join (keptLines e c)));
        [|destruct w; exact Hw|destruct w; reflexivity].
      rewrite keptLines_settled by exact He. rewrite Nat.eqb_refl.
      reflexivity. }
  split; [exact E|]. unfold run. rewrite E.
  destruct w1; split; reflexivity.
Qed.

Lemma removeFileFromExclude_twice_not_found_witness :
  let w := fileWorld (join [js "a.txt"; js " a.txt"; js "b.txt"; js ""]) in
  let w1 := run (removeFileFromExclude (js "a.txt")) w in
  gitInfo w1 = InfoDir (RegularFile (join [js "b.txt"; js ""]))
  /\ removeFileFromExclude (js "a.txt") w1
     = (Ok false, notified (NotFound (js "a.txt")) w1)
  /\ gitInfo (run (removeFileFromExclude (js "a.txt")) w1) = gitInfo w1
  /\ fsJournal (run (removeFileFromExclude (js "a.txt")) w1) = fsJournal w1.
Proof.
  intros w w1. split; [reflexivity|].
  apply (removeFileFromExclude_twice_not_found w (js "/ws") []
           (join [js "a.txt"; js " a.txt"; js "b.txt"; js ""]) (js "a.txt")
           eq_refl eq_refl).
  discriminate.
Defined.

Lemma filter_notListed_keptLines (e : jsstring) (ls : list jsstring) :
  isEntryLine e ->
  filter notListed
         (filter (fun l => if jsstring_eq_dec (trim l) e then false else true)
                 ls)
  = filter notListed ls.
Proof.
  intros He. apply keepLine_spec in He.
  induction ls as [|l ls IH]; [reflexivity|]. simpl.
  destruct (jsstring_eq_dec (trim l) e) as [E|N]; simpl.
  - unfold notListed at 2. rewrite E, He. simpl. exact IH.
  - destruct (notListed l); rewrite IH; reflexivity.
Qed.

(** X6: Removing an entry never deletes a comment or a blank line: on an
    existing exclude file, when the target is a non-empty non-comment
    string that some line trims to, the file is rewritten as the join of
    kept lines among which the lines that are blank or comments are the
    same as before, in the same order. *)
Theorem removeFileFromExclude_keeps_unlisted_lines
    (w : World) (root : jsstring) (rest : list jsstring) (c e : jsstring) :
  workspaceFolders w = Some (root :: rest) ->
  gitInfo w = InfoDir (RegularFile c) ->
  isEntryLine e ->
  (exists l, In l (split c) /\ trim l = e) ->
  exists kept,
    removeFileFromExclude e w
    = (Ok true, notified (Removed e) (written root (join kept) w))
    /\ filter notListed kept = filter notListed (split c)
    /\ (kept <> [] -> split (join kept) = kept).
Proof.
  intros Hw Hg He Hex.
  exists (filter (fun l => if jsstring_eq_dec (trim l) e then false else true)
                 (split c)).
  split; [|split].
  - rewrite (removeFileFromExclude_run e w root rest c Hw Hg).
    rewrite (keptLines_shorter e c Hex). unfold keptLines.
    rewrite filter_ext_dec. reflexivity.
  - apply filter_notListed_keptLines, He.
  - intros Hne. apply split_join; [exact Hne|].
    apply filter_forall_lines, split_lines_noLF.
Qed.

Lemma removeFileFromExclude_keeps_unlisted_lines_witness :
  let c := join [js "# mine"; js "a.txt"; js ""; js "  # a.txt"; js "b.txt";
                 js ""] in
  exists kept,
    removeFileFromExclude (js "a.txt") (fileWorld c)
    = (Ok true,
       notified (Removed (js "a.txt"))
                (written (js "/ws") (join kept) (fileWorld c)))
    /\ filter notListed kept = filter notListed (split c)
    /\ (kept <> [] -> split (join kept) = kept).
Proof.
  intros c.
  apply (removeFileFromExclude_keeps_unlisted_lines (fileWorld c) (js "/ws")
           [] c (js "a.txt") eq_refl eq_refl).
  - split; discriminate.
  - exists (js "a.txt"). split; [right; left; reflexivity | reflexivity].
Defined.

(* ================================================================= *)
(** ** Further properties of add *)

Lemma split_appended_any (c p : jsstring) :
  split (appended c p)
  = (if truthy (trim c) then split (trim c) else []) ++ split p ++ [[]].
Proof.
  unfold appended. destruct (trim c) as [|a t]; simpl truthy; cbv iota.
  - simpl app. apply split_snoc_LF.
  - change ((a :: t) ++ [LF] ++ p ++ [LF]) with ((a :: t) ++ LF :: (p ++ [LF])).
    rewrite split_app_LF, split_snoc_LF. reflexivity.
Qed.

Lemma loadLines_appended_any (c p : jsstring) :
  loadLines (split (appended c p))
  = loadLines (split c) ++ loadLines (split p).
Proof.
  rewrite split_appended_any, !loadLines_app, <- (loadLines_split_trim c).
  f_equal; [destruct (trim c) as [|a t]; reflexivity|].
  apply app_nil_r.
Qed.

Section AddMore.
Variable path_relative : jsstring -> jsstring -> jsstring.

Lemma excludeFileFromGit_noFolders (filePath : jsstring) (w : World) :
  noFolders (workspaceFolders w) = true ->
  excludeFileFromGit path_relative filePath w
  = (Ok false, notified (SevError, MsgNoWorkspace) w).
Proof.
  destruct w as [[[|root rest]|] g ee ns co j]; try discriminate; reflexivity.
Qed.

(** X8: In every world, [excludeFileFromGit] only ever extends the list: what
    [getExcludedFiles] returned before is a prefix, in the same order, of
    what it returns afterwards. *)
Theorem excludeFileFromGit_keeps_listed_entries
    (filePath : jsstring) (w : World) :
  exists before added,
    value getExcludedFiles w = Ok before
    /\ value getExcludedFiles (run (excludeFileFromGit path_relative filePath) w)
       = Ok (before ++ added).
Proof.
  exists (entriesOf w). rewrite getExcludedFiles_value.
  assert (H : exists added,
             entriesOf (run (excludeFileFromGit path_relative filePath) w)
             = entriesOf w ++ added).
  { destruct (noFolders (workspaceFolders w)) eqn:Hf.
    - exists []. unfold run.
      rewrite (excludeFileFromGit_noFolders filePath w Hf).
      rewrite app_nil_r. destruct w; reflexivity.
    - destruct (noFolders_false _ Hf) as (root & rest & Hw).
      destruct (gitInfo w) as [|[|c|]] eqn:Hg.
      + unfold run.
        rewrite (excludeFileFromGit_run path_relative filePath w root rest Hw)
          by congruence.
        rewrite Hg. simpl priorContent.
        destruct (includes (split (js "")) _).
        * exists []. destruct w; simpl in *; subst. reflexivity.
        * eexists. destruct w; simpl in *; subst. unfold entriesOf. simpl.
          rewrite loadLines_appended_any. reflexivity.
      + unfold run.
        rewrite (excludeFileFromGit_run path_relative filePath w root rest Hw)
          by congruence.
        rewrite Hg. simpl priorContent.
        destruct (includes (split (js "")) _).
        * exists []. destruct w; simpl in *; subst. reflexivity.
        * eexists. destruct w; simpl in *; subst. unfold entriesOf. simpl.
          rewrite loadLines_appended_any. reflexivity.
      + unfold run.
        rewrite (excludeFileFromGit_run path_relative filePath w root rest Hw)
          by congruence.
        rewrite Hg. simpl priorContent.
        destruct (includes (split c) _).
        * exists []. destruct w; simpl in *; subst. unfold entriesOf. simpl.
          rewrite app_nil_r. reflexivity.
        * eexists. destruct w; simpl in *; subst. unfold entriesOf. simpl.
          rewrite loadLines_appended_any. reflexivity.
      + exists []. unfold run.
        rewrite (excludeFileFromGit_directory path_relative filePath w root
                   rest Hw Hg).
        destruct w; simpl in *; subst. reflexivity. }
  destruct H as (added & H). exists added. split; [reflexivity|].
  rewrite getExcludedFiles_value, H. reflexivity.
Qed.

Lemma excludeFileFromGit_lists_entry_aux
    (filePath : jsstring) (w : World) (root : jsstring)
    (rest : list jsstring) :
  workspaceFolders w = Some (root :: rest) ->
  gitInfo w <> InfoDir Directory ->
  let p := pathToAdd path_relative root filePath in
  isEntryLine p -> trim p = p -> ~ In LF p ->
  let w1 := run (excludeFileFromGit path_relative filePath) w in
  value (excludeFileFromGit path_relative filePath) w = Ok true
  /\ (exists content,
        gitInfo w1 = InfoDir (RegularFile content) /\ In p (split content))
  /\ (exists entries, value getExcludedFiles w1 = Ok entries /\ In p entries).
Proof.
  intros Hw Hg p He Htrim Hlf w1.
  assert (Hp : loadLines [p] = [p]).
  { rewrite loadLines_entry by exact Htrim.
    apply keepLine_spec in He. rewrite He. reflexivity. }
  assert (Hin : forall c, In p (split c) -> In p (loadLines (split c))).
  { intros c Hc. unfold loadLines. apply filter_In. split.
    - rewrite <- Htrim. apply in_map, Hc.
    - apply keepLine_spec, He. }
  unfold w1, value, run.
  rewrite (excludeFileFromGit_run path_relative filePath w root rest Hw Hg).
  fold p. destruct (includes (split (priorContent (gitInfo w))) p) eqn:Ei.
  - apply includes_In in Ei. split; [reflexivity|].
    destruct w as [wf g ee ns co j]; simpl in *; subst wf.
    destruct g as [|[|c|]]; try congruence.
    + exfalso. destruct Ei as [E|[]]. destruct He as [He _]. congruence.
    + exfalso. destruct Ei as [E|[]]. destruct He as [He _]. congruence.
    + split; [exists c; split; [reflexivity|exact Ei]|].
      exists (loadLines (split c)). split; [reflexivity|]. apply Hin, Ei.
  - split; [reflexivity|].
    assert (Hs : In p (split (appended (priorContent (gitInfo w)) p))).
    { rewrite split_appended by exact Hlf.
      apply in_or_app. right. left. reflexivity. }
    destruct w as [wf g ee ns co j]; simpl in *; subst wf.
    split.
    + eexists. split; [destruct g as [|[|c|]]; reflexivity || congruence|].
      exact Hs.
    + eexists. split; [destruct g as [|[|c|]]; reflexivity || congruence|].
      apply Hin, Hs.
Qed.

(** X9: With a workspace folder and an exclude file that is readable or
    absent, [excludeFileFromGit] returns [true], and for an entry that is
    one trimmed, non-empty, non-comment line the file then exists, has the
    entry as one of its raw lines and [getExcludedFiles] lists it. *)
Theorem excludeFileFromGit_lists_entry
    (filePath : jsstring) (w : World) (root : jsstring)
    (rest : list jsstring) :
  workspaceFolders w = Some (root :: rest) ->
  gitInfo w <> InfoDir Directory ->
  let p := pathToAdd path_relative root filePath in
  isEntryLine p -> trim p = p -> ~ In LF p ->
  let w1 := run (excludeFileFromGit path_relative filePath) w in
  value (excludeFileFromGit path_relative filePath) w = Ok true
  /\ (exists content,
        gitInfo w1 = InfoDir (RegularFile content) /\ In p (split content))
  /\ (exists entries, value getExcludedFiles w1 = Ok entries /\ In p entries).
Proof.
  exact (excludeFileFromGit_lists_entry_aux filePath w root rest).
Qed.

End AddMore.

Lemma excludeFileFromGit_lists_entry_witness :
  let w := wsWorld (InfoDir Missing) (fun _ => false) in
  let w1 := run (excludeFileFromGit relativeBelow (js "/ws/dir/a b.txt")) w in
  value (excludeFileFromGit relativeBelow (js "/ws/dir/a b.txt")) w = Ok true
  /\ (exists content,
        gitInfo w1 = InfoDir (RegularFile content)
        /\ In (js "dir/a b.txt") (split content))
  /\ (exists entries,
        value getExcludedFiles w1 = Ok entries
        /\ In (js "dir/a b.txt") entries).
Proof.
  intros w w1.
  apply (excludeFileFromGit_lists_entry relativeBelow (js "/ws/dir/a b.txt") w
           (js "/ws") [] eq_refl).
  - discriminate.
  - split; discriminate.
  - reflexivity.
  - vm_compute. intuition discriminate.
Defined.

Lemma isTrimmed_around (a m b : jsstring) :
  a <> [] -> b <> [] ->
  isTrimmed a = true -> isTrimmed b = true ->
  isTrimmed (a ++ m ++ b) = true.
Proof.
  intros Ha Hb Ta Tb. unfold isTrimmed in *.
  apply andb_true_iff in Ta as [Ta _]. apply andb_true_iff in Tb as [_ Tb].
  apply andb_true_iff. split.
  - destruct a; [congruence|exact Ta].
  - rewrite !rev_app_distr. destruct (rev b) as [|x r] eqn:E.
    + exfalso. apply Hb. rewrite <- (rev_involutive b), E. reflexivity.
    + exact Tb.
Qed.

Lemma isTrimmed_nonempty_trim (c : jsstring) :
  trim c <> [] -> isTrimmed (trim c) = true.
Proof. intros _. apply trim_isTrimmed. Qed.

(** What an add writes ends in one newline after a trimmed, non-empty
    text. *)
Lemma appended_canonical (c p : jsstring) :
  p <> [] -> isTrimmed p = true ->
  exists core,
    appended c p = core ++ [LF] /\ isTrimmed core = true /\ core <> [].
Proof.
  intros Hp Tp. unfold appended. destruct (trim c) as [|a t] eqn:E.
  - exists p. simpl. auto.
  - exists ((a :: t) ++ [LF] ++ p). simpl truthy. cbv iota.
    split; [rewrite <- !app_assoc; reflexivity|]. split; [|discriminate].
    apply isTrimmed_around; try assumption; try discriminate.
    rewrite <- E. apply trim_isTrimmed.
Qed.

Lemma appended_after_newline (core q : jsstring) :
  isTrimmed core = true -> core <> [] ->
  appended (core ++ [LF]) q = (core ++ [LF]) ++ q ++ [LF].
Proof.
  intros Tc Hc. unfold appended.
  rewrite (trim_app_ws core [LF]) by reflexivity.
  rewrite (isTrimmed_trim core Tc).
  destruct core; [congruence|]. simpl truthy. cbv iota.
  rewrite <- !app_assoc. reflexivity.
Qed.

Section AddAppends.
Variable path_relative : jsstring -> jsstring -> jsstring.

Lemma excludeFileFromGit_appends_after_final_newline_aux
    (filePath : jsstring) (w : World) (root : jsstring)
    (rest : list jsstring) (core : jsstring) :
  workspaceFolders w = Some (root :: rest) ->
  gitInfo w = InfoDir (RegularFile (core ++ [LF])) ->
  isTrimmed core = true -> core <> [] ->
  let p := pathToAdd path_relative root filePath in
  ~ In p (split (core ++ [LF])) ->
  excludeFileFromGit path_relative filePath w
  = (Ok true,
     notified (Added p) (written root ((core ++ [LF]) ++ p ++ [LF]) w)).
Proof.
  intros Hw Hg Tc Hc p Hnew.
  rewrite (excludeFileFromGit_run path_relative filePath w root rest Hw)
    by congruence.
  rewrite Hg. simpl priorContent. fold p.
  apply includes_not_In in Hnew. rewrite Hnew.
  rewrite (appended_after_newline core p Tc Hc).
  unfold withInfoDir. rewrite Hg. reflexivity.
Qed.

(** X10: On an exclude file that is a trimmed, non-empty text followed by one
    newline, an add that writes is a pure append: the old content stays
    as it is, byte for byte, and the entry and a newline follow it. *)
Theorem excludeFileFromGit_appends_after_final_newline
    (filePath : jsstring) (w : World) (root : jsstring)
    (rest : list jsstring) (core : jsstring) :
  workspaceFolders w = Some (root :: rest) ->
  gitInfo w = InfoDir (RegularFile (core ++ [LF])) ->
  isTrimmed core = true -> core <> [] ->
  let p := pathToAdd path_relative root filePath in
  ~ In p (split (core ++ [LF])) ->
  excludeFileFromGit path_relative filePath w
  = (Ok true,
     notified (Added p) (written root ((core ++ [LF]) ++ p ++ [LF]) w)).
Proof.
  exact (excludeFileFromGit_appends_after_final_newline_aux
           filePath w root rest core).
Qed.

(** X11: Two adds compose as appends: when the first add writes a trimmed,
    non-empty entry [p] and the second adds an entry [q] that is not a
    line of the result, the file ends up as what the first add wrote
    followed by [q] and a newline. *)
Theorem excludeFileFromGit_second_add_appends
    (filePath1 filePath2 : jsstring) (w : World) (root : jsstring)
    (rest : list jsstring) :
  workspaceFolders w = Some (root :: rest) ->
  gitInfo w <> InfoDir Directory ->
  let c := priorContent (gitInfo w) in
  let p := pathToAdd path_relative root filePath1 in
  let q := pathToAdd path_relative root filePath2 in
  p <> [] -> isTrimmed p = true ->
  ~ In p (split c) ->
  ~ In q (split (appended c p)) ->
  gitInfo (run (excludeFileFromGit path_relative filePath2)
               (run (excludeFileFromGit path_relative filePath1) w))
  = InfoDir (RegularFile (appended c p ++ q ++ [LF])).
Proof.
  intros Hw Hg c p q Hp Tp Hnp Hnq.
  destruct (appended_canonical c p Hp Tp) as (core & Ec & Tc & Hc).
  assert (E1 : exists w1,
             run (excludeFileFromGit path_relative filePath1) w = w1
             /\ workspaceFolders w1 = Some (root :: rest)
             /\ gitInfo w1 = InfoDir (RegularFile (core ++ [LF]))).
  { eexists. split; [reflexivity|]. unfold run.
    rewrite (excludeFileFromGit_run path_relative filePath1 w root rest Hw Hg).
    fold c p. apply includes_not_In in Hnp. rewrite Hnp. rewrite Ec.
    destruct w as [wf g ee ns co j]; simpl in *; subst wf.
    destruct g as [|[|c0|]]; split; reflexivity || congruence. }
  destruct E1 as (w1 & -> & Hw1 & Hg1).
  unfold run at 1.
  rewrite (excludeFileFromGit_appends_after_final_newline_aux
             filePath2 w1 root rest core Hw1 Hg1 Tc Hc).
  - rewrite Ec. destruct w1; reflexivity.
  - fold q. rewrite <- Ec. exact Hnq.
Qed.

End AddAppends.

Lemma excludeFileFromGit_appends_after_final_newline_witness :
  let core := join [js "# mine"; js ""; js "a.txt"] in
  let w := fileWorld (core ++ [LF]) in
  excludeFileFromGit relativeBelow (js "/ws/b.txt") w
  = (Ok true,
     notified (Added (js "b.txt"))
              (written (js "/ws") ((core ++ [LF]) ++ js "b.txt" ++ [LF]) w)).
Proof.
  intros core w.
  apply (excludeFileFromGit_appends_after_final_newline relativeBelow
           (js "/ws/b.txt") w (js "/ws") [] core eq_refl eq_refl).
  - reflexivity.
  - discriminate.
  - vm_compute. intuition discriminate.
Defined.

Lemma excludeFileFromGit_second_add_appends_witness :
  let w := fileWorld (join [js ""; js "  # mine"; js ""; js ""]) in
  gitInfo (run (excludeFileFromGit relativeBelow (js "/ws/b.txt"))
               (run (excludeFileFromGit relativeBelow (js "/ws/a.txt")) w))
  = InfoDir (RegularFile
               (appended (join [js ""; js "  # mine"; js ""; js ""])
                         (js "a.txt")
                ++ js "b.txt" ++ [LF])).
Proof.
  intros w.
  apply (excludeFileFromGit_second_add_appends relativeBelow
           (js "/ws/a.txt") (js "/ws/b.txt") w (js "/ws") [] eq_refl).
  - discriminate.
  - discriminate.
  - reflexivity.
  - vm_compute. intuition discriminate.
  - vm_compute. intuition discriminate.
Defined.

(* ================================================================= *)
(** ** The entry normalizer *)

(** X12: The entry [excludeFileFromGit] derives from a path holds no backslash,
    whatever [path.relative] returns; it is as long as the relative path,
    normalizing it again changes nothing, a relative path without
    backslash is taken as it is, and the same relative path spelled with
    backslashes for all its separators gives the same entry. *)
Theorem pathToAdd_has_no_backslash
    (path_relative : jsstring -> jsstring -> jsstring)
    (root filePath : jsstring) :
  let r := path_relative root filePath in
  let p := pathToAdd path_relative root filePath in
  ~ In BACKSLASH p
  /\ List.length p = List.length r
  /\ replaceBackslashes p = p
  /\ (~ In BACKSLASH r -> p = r)
  /\ replaceBackslashes
       (map (fun c => if char_eqb c SLASH then BACKSLASH else c) r) = p.
Proof.
  intros r p. unfold p, pathToAdd. fold r. clearbody r. clear p.
  assert (Hno : forall s, ~ In BACKSLASH (replaceBackslashes s)).
  { induction s as [|x s IH]; simpl; [tauto|].
    intros [K|K]; [|exact (IH K)].
    destruct (char_eqb x BACKSLASH) eqn:E.
    - discriminate K.
    - apply char_eqb_neq in E. congruence. }
  assert (Hid : forall s, ~ In BACKSLASH s -> replaceBackslashes s = s).
  { induction s as [|x s IH]; simpl; [reflexivity|]. intros K.
    destruct (char_eqb x BACKSLASH) eqn:E.
    - apply char_eqb_eq in E. exfalso. apply K. left. exact E.
    - rewrite IH; [reflexivity|]. intros K'. apply K. right. exact K'. }
  split; [apply Hno|]. split; [apply length_map|].
  split; [apply Hid, Hno|]. split; [apply Hid|].
  unfold replaceBackslashes. rewrite map_map.
  apply map_ext. intros x.
  destruct (char_eqb x SLASH) eqn:E1.
  - apply char_eqb_eq in E1. subst x. reflexivity.
  - reflexivity.
Qed.

Example pathToAdd_windows_and_posix :
  replaceBackslashes (N_of_ascii "s" :: js "ub" ++ [BACKSLASH] ++ js "dir"
                      ++ [BACKSLASH] ++ js "file.txt")
  = js "sub/dir/file.txt"
  /\ pathToAdd relativeBelow (js "/ws") (js "/ws/sub/dir/file.txt")
     = js "sub/dir/file.txt".
Proof. split; reflexivity. Qed.

(* ================================================================= *)
(** ** Further properties of the tree *)

Lemma forEachPush_nodes (root : jsstring) (entries : list jsstring)
    (w : World) :
  exists items,
    forEachPush (excludedFileItem root) entries w = (Ok items, w)
    /\ map label items = entries
    /\ Forall (fun n =>
                 contextValue n = js "excludedFile"
                 /\ collapsibleState n = CollapsibleNone
                 /\ command n
                    = (if entryExists w (label n)
                       then Some (openCommand root (label n)) else None)
                 /\ iconPath n
                    = Some (NewThemeIcon (if entryExists w (label n)
                                          then js "file" else js "warning"))
                 /\ tooltip n
                    = (if entryExists w (label n)
                       then lit_excludedFile else lit_excludedFileMissing)
                      ++ label n)
              items.
Proof.
  induction entries as [|e es (items & E & Hl & Hf)].
  - exists []. repeat split. constructor.
  - eexists (_ :: items). simpl. unfold bind at 1.
    unfold excludedFileItem at 1. unfold bind at 1, existsSync, ret at 1.
    unfold bind at 1. rewrite E. split; [reflexivity|].
    split; [simpl; rewrite Hl; reflexivity|].
    constructor; [|exact Hf]. simpl.
    destruct (entryExists w e); repeat split.
Qed.

Section TreeMore.
Variable localeCompare : jsstring -> jsstring -> Z.

Lemma getChildren_nodes (w : World) (root : jsstring) (rest : list jsstring) :
  workspaceFolders w = Some (root :: rest) ->
  entriesOf w <> [] ->
  exists items,
    getChildren localeCompare None w
    = (Ok (sort (fun a b => localeCompare (label a) (label b)) items), w)
    /\ map label items = entriesOf w
    /\ Forall (fun n =>
                 contextValue n = js "excludedFile"
                 /\ collapsibleState n = CollapsibleNone
                 /\ command n
                    = (if entryExists w (label n)
                       then Some (openCommand root (label n)) else None)
                 /\ iconPath n
                    = Some (NewThemeIcon (if entryExists w (label n)
                                          then js "file" else js "warning"))
                 /\ tooltip n
                    = (if entryExists w (label n)
                       then lit_excludedFile else lit_excludedFileMissing)
                      ++ label n)
              items.
Proof.
  intros Hw Hne.
  assert (Hg : gitInfo w <> InfoDir Directory).
  { intros K. apply Hne. unfold entriesOf. rewrite K.
    destruct (noFolders (workspaceFolders w)); reflexivity. }
  destruct (forEachPush_nodes root (entriesOf w) w) as (items & E & Hl & Hf).
  exists items. split; [|split; assumption].
  assert (Hlen : Nat.eqb (List.length (entriesOf w)) 0 = false)
    by (destruct (entriesOf w); [congruence|reflexivity]).
  unfold getChildren. unfold bind at 1.
  rewrite (getExcludedFiles_run w Hg), Hlen.
  unfold bind at 1, getWorkspaceFolders. rewrite Hw.
  cbn [undefinedFolders firstFolderPath bind ret].
  unfold bind. rewrite E. reflexivity.
Qed.

(** X13: [getChildren] never throws (the unguarded [workspaceFolders[0]] is
    only reached when a folder exists), changes nothing on disk and shows
    no message; and the root query never returns an empty array. *)
Theorem getChildren_is_safe (element : option GitAwayTreeItem) (w : World) :
  exists nodes w',
    getChildren localeCompare element w = (Ok nodes, w')
    /\ gitInfo w' = gitInfo w
    /\ fsJournal w' = fsJournal w
    /\ notifications w' = notifications w
    /\ (element = None -> nodes <> []).
Proof.
  destruct element as [it|].
  - exists [], w. repeat split. discriminate.
  - destruct (entriesOf w) as [|e es] eqn:Ee.
    + destruct (getExcludedFiles_effects w)
        as (w' & E & _ & H2 & _ & H3 & H4 & _).
      rewrite Ee in E. exists [placeholderItem], w'.
      split; [apply getChildren_empty, E|]. repeat split; try assumption.
      discriminate.
    + assert (Hne : entriesOf w <> []) by congruence.
      assert (Hf : noFolders (workspaceFolders w) = false).
      { unfold entriesOf in Hne. destruct (noFolders (workspaceFolders w));
          congruence. }
      destruct (noFolders_false _ Hf) as (root & rest & Hw).
      destruct (getChildren_nodes w root rest Hw Hne) as (items & E & Hl & _).
      eexists _, w. split; [exact E|]. repeat split.
      intros _ K.
      pose proof (@sort_perm _
                    (fun a b => localeCompare (label a) (label b)) items) as P.
      rewrite K in P. apply Permutation_nil in P. subst items.
      simpl in Hl. congruence.
Qed.

(** X14: With a workspace folder and a non-empty list, the root query returns
    one node per entry, and each node is bound to its own entry: its
    context value is ['excludedFile'], and it carries the [vscode.open]
    command on the path of its label under the first workspace folder,
    the ['file'] icon and the plain tooltip exactly when that path exists;
    otherwise it has no command, the ['warning'] icon and the tooltip
    that says the file is missing. *)
Theorem getChildren_nodes_open_what_exists
    (w : World) (root : jsstring) (rest : list jsstring)
    (entries : list jsstring) :
  workspaceFolders w = Some (root :: rest) ->
  value getExcludedFiles w = Ok entries ->
  entries <> [] ->
  exists nodes,
    getChildren localeCompare None w = (Ok nodes, w)
    /\ Permutation (map label nodes) entries
    /\ Forall (fun n =>
                 contextValue n = js "excludedFile"
                 /\ collapsibleState n = CollapsibleNone
                 /\ command n
                    = (if entryExists w (label n)
                       then Some (openCommand root (label n)) else None)
                 /\ iconPath n
                    = Some (NewThemeIcon (if entryExists w (label n)
                                          then js "file" else js "warning"))
                 /\ tooltip n
                    = (if entryExists w (label n)
                       then lit_excludedFile else lit_excludedFileMissing)
                      ++ label n)
              nodes.
Proof.
  intros Hw Hv Hne. rewrite getExcludedFiles_value in Hv. injection Hv as Hv.
  subst entries.
  destruct (getChildren_nodes w root rest Hw Hne) as (items & E & Hl & Hf).
  eexists. split; [exact E|]. split.
  - rewrite <- Hl. apply Permutation_map, sort_perm.
  - eapply Permutation_Forall; [apply Permutation_sym, sort_perm|exact Hf].
Qed.

End TreeMore.

Lemma getChildren_nodes_open_what_exists_witness :
  let w := wsWorld (InfoDir (RegularFile (join [js "gone.txt"; js "here.txt"])))
                   (str_eqb (js "here.txt")) in
  exists nodes,
    getChildren codeUnitCompare None w = (Ok nodes, w)
    /\ Permutation (map label nodes) [js "gone.txt"; js "here.txt"]
    /\ Forall (fun n =>
                 contextValue n = js "excludedFile"
                 /\ collapsibleState n = CollapsibleNone
                 /\ command n
                    = (if entryExists w (label n)
                       then Some (openCommand (js "/ws") (label n)) else None)
                 /\ iconPath n
                    = Some (NewThemeIcon (if entryExists w (label n)
                                          then js "file" else js "warning"))
                 /\ tooltip n
                    = (if entryExists w (label n)
                       then lit_excludedFile else lit_excludedFileMissing)
                      ++ label n)
              nodes.
Proof.
  intros w.
  apply (getChildren_nodes_open_what_exists codeUnitCompare w (js "/ws") []
           [js "gone.txt"; js "here.txt"] eq_refl eq_refl).
  discriminate.
Defined.

(* ================================================================= *)
(** ** Removing what is and what is not listed *)

Lemma loadLines_In (e : jsstring) (ls : list jsstring) :
  In e (loadLines ls) <-> (keepLine e = true /\ exists l, In l ls /\ trim l = e).
Proof.
  unfold loadLines. rewrite filter_In, in_map_iff. split.
  - intros [(l & E & Hl) Hk]. split; [exact Hk|]. exists l. auto.
  - intros [Hk (l & Hl & E)]. split; [exists l; auto | exact Hk].
Qed.

Lemma removeFileFromExclude_listed (e : jsstring) (w : World) :
  In e (entriesOf w) ->
  exists root rest c,
    workspaceFolders w = Some (root :: rest)
    /\ gitInfo w = InfoDir (RegularFile c)
    /\ removeFileFromExclude e w
       = (Ok true, notified (Removed e) (written root (join (keptLines e c)) w)).
Proof.
  intros Hin. unfold entriesOf in Hin.
  destruct (noFolders (workspaceFolders w)) eqn:Hf; [destruct Hin|].
  destruct (noFolders_false _ Hf) as (root & rest & Hw).
  destruct (gitInfo w) as [|[|c|]] eqn:Hg; try destruct Hin.
  exists root, rest, c. split; [exact Hw|]. split; [reflexivity|].
  rewrite (removeFileFromExclude_run e w root rest c Hw Hg).
  apply loadLines_In in Hin as [_ Hex].
  rewrite (keptLines_shorter e c Hex). reflexivity.
Qed.

Lemma removeFileFromExclude_unlisted (e : jsstring) (w : World) :
  isEntryLine e -> ~ In e (entriesOf w) ->
  exists w',
    removeFileFromExclude e w = (Ok false, w')
    /\ gitInfo w' = gitInfo w /\ fsJournal w' = fsJournal w.
Proof.
  intros He Hnot.
  destruct (noFolders (workspaceFolders w)) eqn:Hf.
  - rewrite (removeFileFromExclude_noFolders e w Hf).
    eexists. split; [reflexivity|]. destruct w; auto.
  - destruct (noFolders_false _ Hf) as (root & rest & Hw).
    destruct (gitInfo w) as [|[|c|]] eqn:Hg.
    + rewrite (removeFileFromExclude_missing e w root rest Hw) by auto.
      eexists. split; [reflexivity|]. destruct w; simpl in *; auto.
    + rewrite (removeFileFromExclude_missing e w root rest Hw) by auto.
      eexists. split; [reflexivity|]. destruct w; simpl in *; auto.
    + rewrite (removeFileFromExclude_run e w root rest c Hw Hg).
      rewrite keptLines_same, Nat.eqb_refl.
      * eexists. split; [reflexivity|]. destruct w; simpl in *; auto.
      * intros l Hl K. apply Hnot. unfold entriesOf. rewrite Hf, Hg.
        apply loadLines_In. split; [apply keepLine_spec, He|]. eauto.
    + rewrite (removeFileFromExclude_directory e w root rest Hw Hg).
      eexists. split; [reflexivity|]. destruct w; simpl in *; auto.
Qed.

(** X7: For a target that is non-empty and does not start with [#], in every
    world, [removeFileFromExclude] returns [true] exactly when
    [getExcludedFiles] lists the target; when it does not, nothing is
    written. *)
Theorem removeFileFromExclude_true_iff_listed (e : jsstring) (w : World) :
  isEntryLine e ->
  exists entries,
    value getExcludedFiles w = Ok entries
    /\ (value (removeFileFromExclude e) w = Ok true <-> In e entries)
    /\ (~ In e entries ->
        gitInfo (run (removeFileFromExclude e) w) = gitInfo w
        /\ fsJournal (run (removeFileFromExclude e) w) = fsJournal w).
Proof.
  intros He. exists (entriesOf w). split; [apply getExcludedFiles_value|].
  split; [split|].
  - intros Hv. destruct (in_dec jsstring_eq_dec e (entriesOf w)) as [H|H];
      [exact H|].
    destruct (removeFileFromExclude_unlisted e w He H) as (w' & E & _).
    unfold value in Hv. rewrite E in Hv. discriminate.
  - intros Hin.
    destruct (removeFileFromExclude_listed e w Hin) as (r & t & c & _ & _ & E).
    unfold value. rewrite E. reflexivity.
  - intros H.
    destruct (removeFileFromExclude_unlisted e w He H) as (w' & E & H1 & H2).
    unfold run. rewrite E. auto.
Qed.

Lemma removeFileFromExclude_true_iff_listed_witness :
  isEntryLine (js "b.txt")
  /\ exists entries,
       value getExcludedFiles (fileWorld (join [js "#b.txt"; js " b.txt "]))
       = Ok entries
       /\ (value (removeFileFromExclude (js "b.txt"))
                 (fileWorld (join [js "#b.txt"; js " b.txt "])) = Ok true
           <-> In (js "b.txt") entries)
       /\ (~ In (js "b.txt") entries ->
           gitInfo (run (removeFileFromExclude (js "b.txt"))
                        (fileWorld (join [js "#b.txt"; js " b.txt "])))
           = gitInfo (fileWorld (join [js "#b.txt"; js " b.txt "]))
           /\ fsJournal (run (removeFileFromExclude (js "b.txt"))
                             (fileWorld (join [js "#b.txt"; js " b.txt "])))
              = fsJournal (fileWorld (join [js "#b.txt"; js " b.txt "]))).
Proof.
  assert (H : isEntryLine (js "b.txt")) by (split; discriminate).
  split; [exact H|].
  exact (removeFileFromExclude_true_iff_listed (js "b.txt")
           (fileWorld (join [js "#b.txt"; js " b.txt "])) H).
Defined.

(* ================================================================= *)
(** ** The commands *)

Lemma liftHost_run (A : Type) (c : M A) (s : Session) (r : Result A)
    (w' : World) :
  c (host s) = (r, w') ->
  liftHost c s = (r, mkSession w' (treeDataChanged s) (commandMessages s)).
Proof. intros E. unfold liftHost. rewrite E. reflexivity. Qed.

(** X15: [vs-git-away.removeFromExclude] never throws and fires the tree's
    change event exactly when the exclude file was rewritten: either the
    event fired once and one write was journalled, or it did not fire and
    the file and the journal are as before. Without an item, or with an
    item whose label is empty, the host is not touched at all and the
    no-selection error is shown. *)
Theorem removeFromExcludeCommand_refreshes_iff_written
    (item : option GitAwayTreeItem) (s : Session) :
  exists s',
    removeFromExcludeCommand item s = (Ok tt, s')
    /\ ((treeDataChanged s' = S (treeDataChanged s)
         /\ exists root content,
              fsJournal (host s')
              = fsJournal (host s)
                ++ [WriteFile (ExcludeFilePath root) content])
        \/ (treeDataChanged s' = treeDataChanged s
            /\ fsJournal (host s') = fsJournal (host s)
            /\ gitInfo (host s') = gitInfo (host s)))
    /\ ((item = None \/ exists it, item = Some it /\ label it = []) ->
        host s' = host s
        /\ treeDataChanged s' = treeDataChanged s
        /\ commandMessages s'
           = commandMessages s ++ [(SevError, MsgNoFileSelected)]).
Proof.
  destruct item as [it|].
  - unfold removeFromExcludeCommand.
    destruct (label it) as [|x l] eqn:El; simpl truthy; cbv iota.
    + eexists. split; [reflexivity|]. simpl. auto 10.
    + cbn [truthy negb].
      destruct (removeFileFromExclude_outcome (x :: l) (host s))
        as (b & w' & E & Hfalse & Htrue).
      unfold cbind. rewrite (liftHost_run _ _ _ _ _ E).
      destruct b.
      * eexists. split; [reflexivity|]. simpl. split.
        -- left. split; [reflexivity|].
           destruct (Htrue eq_refl) as (root & content & _ & Hj & _).
           eauto.
        -- intros [K|(it' & K & K')]; [discriminate|].
           injection K as <-. congruence.
      * eexists. split; [reflexivity|]. simpl. split.
        -- right. destruct (Hfalse eq_refl). auto.
        -- intros [K|(it' & K & K')]; [discriminate|].
           injection K as <-. congruence.
  - eexists. split; [reflexivity|]. simpl. auto 10.
Qed.

Section CommandFacts.
Variable path_relative : jsstring -> jsstring -> jsstring.

Lemma excludeFileFromGit_value (filePath : jsstring) (w : World) :
  value (excludeFileFromGit path_relative filePath) w
  = Ok (negb (noFolders (workspaceFolders w))
        && match gitInfo w with InfoDir Directory => false | _ => true end).
Proof.
  destruct (noFolders (workspaceFolders w)) eqn:Hf.
  - unfold value. rewrite (excludeFileFromGit_noFolders _ filePath w Hf).
    reflexivity.
  - destruct (noFolders_false _ Hf) as (root & rest & Hw).
    destruct (gitInfo w) as [|[|c|]] eqn:Hg; unfold value.
    + rewrite (excludeFileFromGit_run path_relative filePath w root rest Hw)
        by congruence.
      destruct (includes _ _); reflexivity.
    + rewrite (excludeFileFromGit_run path_relative filePath w root rest Hw)
        by congruence.
      destruct (includes _ _); reflexivity.
    + rewrite (excludeFileFromGit_run path_relative filePath w root rest Hw)
        by congruence.
      destruct (includes _ _); reflexivity.
    + rewrite (excludeFileFromGit_directory path_relative filePath w root
                 rest Hw Hg).
      reflexivity.
Qed.

(** X16: [vs-git-away.excludeFromGit] never throws. Without a resource it
    shows the no-selection error and touches nothing. With one it runs
    [excludeFileFromGit] on the host and fires the tree's change event
    once exactly when a workspace folder is open and the exclude file is
    not unreadable, also when the entry was already there and nothing was
    written. *)
Theorem excludeFromGitCommand_refreshes_on_success
    (uri : option jsstring) (s : Session) :
  exists s',
    excludeFromGitCommand path_relative uri s = (Ok tt, s')
    /\ match uri with
       | None =>
           host s' = host s
           /\ treeDataChanged s' = treeDataChanged s
           /\ commandMessages s'
              = commandMessages s ++ [(SevError, MsgNoFileSelected)]
       | Some fsPath =>
           host s' = run (excludeFileFromGit path_relative fsPath) (host s)
           /\ commandMessages s' = commandMessages s
           /\ treeDataChanged s'
              = if noFolders (workspaceFolders (host s))
                then treeDataChanged s
                else match gitInfo (host s) with
                     | InfoDir Directory => treeDataChanged s
                     | _ => S (treeDataChanged s)
                     end
       end.
Proof.
  destruct uri as [fsPath|].
  - pose proof (excludeFileFromGit_value fsPath (host s)) as Hv.
    unfold value in Hv. unfold excludeFromGitCommand, cbind.
    destruct (excludeFileFromGit path_relative fsPath (host s)) as [r w'] eqn:E.
    rewrite (liftHost_run _ _ _ _ _ E). simpl in Hv. subst r.
    assert (Hr : run (excludeFileFromGit path_relative fsPath) (host s) = w')
      by (unfold run; rewrite E; reflexivity).
    destruct (noFolders (workspaceFolders (host s))); simpl.
    + eexists. split; [reflexivity|]. simpl. auto.
    + destruct (gitInfo (host s)) as [|[|c|]];
        (eexists; split; [reflexivity|]; simpl; auto).
  - eexists. split; [reflexivity|]. simpl. auto.
Qed.

End CommandFacts.

Section NodesAndCommands.
Variable localeCompare : jsstring -> jsstring -> Z.

(** X17: Every node the root query shows for a non-empty list can be removed
    through the command: on a fresh session the command reports Removed
    for the node's label, fires the change event once, and afterwards
    [getExcludedFiles] returns the former list without that label. *)
Theorem listed_node_is_removable
    (w : World) (entries : list jsstring) (nodes : list GitAwayTreeItem)
    (n : GitAwayTreeItem) :
  value getExcludedFiles w = Ok entries ->
  entries <> [] ->
  value (getChildren localeCompare None) w = Ok nodes ->
  In n nodes ->
  exists s',
    removeFromExcludeCommand (Some n) (sessionOn w) = (Ok tt, s')
    /\ treeDataChanged s' = 1
    /\ notifications (host s') = notifications w ++ [Removed (label n)]
    /\ value getExcludedFiles (host s')
       = Ok (filter (fun x => if jsstring_eq_dec x (label n)
                              then false else true) entries)
    /\ In (label n) entries.
Proof.
  intros Hv Hne Hc Hn.
  rewrite getExcludedFiles_value in Hv. injection Hv as Hv. subst entries.
  assert (Hf : noFolders (workspaceFolders w) = false).
  { unfold entriesOf in Hne. destruct (noFolders (workspaceFolders w));
      congruence. }
  destruct (noFolders_false _ Hf) as (root & rest & Hw).
  destruct (getChildren_nodes localeCompare w root rest Hw Hne)
    as (items & E & Hl & _).
  unfold value in Hc. rewrite E in Hc. injection Hc as Hc. subst nodes.
  assert (Hin : In (label n) (entriesOf w)).
  { rewrite <- Hl. apply in_map.
    eapply Permutation_in; [apply sort_perm|exact Hn]. }
  assert (Hwf := entriesOf_wellformed w).
  rewrite Forall_forall in Hwf. destruct (Hwf _ Hin) as [[Hnonempty _] _].
  destruct (removeFileFromExclude_listed (label n) w Hin)
    as (root' & rest' & c & _ & Hg & Er).
  unfold removeFromExcludeCommand.
  destruct (label n) as [|x l] eqn:El; [congruence|].
  cbn [truthy negb].
  unfold cbind. rewrite (liftHost_run _ _ (sessionOn w) _ _ Er).
  eexists. split; [reflexivity|]. simpl host. simpl treeDataChanged.
  split; [reflexivity|]. split; [destruct w; reflexivity|].
  split; [|exact Hin].
  rewrite getExcludedFiles_value.
  replace (notified (Removed (x :: l)) (written root' (join (keptLines (x :: l) c)) w))
    with (run (removeFileFromExclude (x :: l)) w)
    by (unfold run; rewrite Er; reflexivity).
  rewrite removeFileFromExclude_entries, filter_neq_dec. reflexivity.
Qed.

(** X18: When nothing is listed the root query shows the placeholder, and the
    remove command on that placeholder changes nothing: no write, no
    change event. *)
Theorem placeholder_is_not_removable (w : World) :
  value getExcludedFiles w = Ok [] ->
  value (getChildren localeCompare None) w = Ok [placeholderItem]
  /\ exists s',
       removeFromExcludeCommand (Some placeholderItem) (sessionOn w)
       = (Ok tt, s')
       /\ treeDataChanged s' = 0
       /\ gitInfo (host s') = gitInfo w
       /\ fsJournal (host s') = fsJournal w.
Proof.
  intros Hv. rewrite getExcludedFiles_value in Hv. injection Hv as Hv.
  split.
  - destruct (getExcludedFiles_effects w) as (w' & E & _).
    rewrite Hv in E. unfold value.
    rewrite (getChildren_empty localeCompare w w' E). reflexivity.
  - assert (He : isEntryLine (label placeholderItem))
      by (split; discriminate).
    assert (Hnot : ~ In (label placeholderItem) (entriesOf w))
      by (rewrite Hv; intros []).
    destruct (removeFileFromExclude_unlisted _ w He Hnot)
      as (w' & E & H1 & H2).
    unfold removeFromExcludeCommand.
    change (negb (truthy (label placeholderItem))) with false. cbv iota.
    unfold cbind. rewrite (liftHost_run _ _ (sessionOn w) _ _ E).
    eexists. split; [reflexivity|]. simpl. auto.
Qed.

End NodesAndCommands.

Lemma listed_node_is_removable_witness :
  let w := fileWorld (join [js "# mine"; js "b.txt"; js " a.txt"; js ""]) in
  let n := mkItem (js "a.txt") CollapsibleNone
                  (Some (NewThemeIcon (js "warning"))) None
                  (lit_excludedFileMissing ++ js "a.txt") (js "excludedFile") in
  exists s',
    removeFromExcludeCommand (Some n) (sessionOn w) = (Ok tt, s')
    /\ treeDataChanged s' = 1
    /\ notifications (host s') = notifications w ++ [Removed (label n)]
    /\ value getExcludedFiles (host s')
       = Ok (filter (fun x => if jsstring_eq_dec x (label n)
                              then false else true)
                    [js "b.txt"; js "a.txt"])
    /\ In (label n) [js "b.txt"; js "a.txt"].
Proof.
  intros w n.
  apply (listed_node_is_removable codeUnitCompare w [js "b.txt"; js "a.txt"]
           (sort (fun a b => codeUnitCompare (label a) (label b))
                 [mkItem (js "b.txt") CollapsibleNone
                         (Some (NewThemeIcon (js "warning"))) None
                         (lit_excludedFileMissing ++ js "b.txt")
                         (js "excludedFile"); n])
           n eq_refl).
  - discriminate.
  - reflexivity.
  - left. reflexivity.
Defined.

Lemma placeholder_is_not_removable_witness :
  let w := fileWorld (join [js "# only a comment"; js ""]) in
  value (getChildren codeUnitCompare None) w = Ok [placeholderItem]
  /\ exists s',
       removeFromExcludeCommand (Some placeholderItem) (sessionOn w)
       = (Ok tt, s')
       /\ treeDataChanged s' = 0
       /\ gitInfo (host s') = gitInfo w
       /\ fsJournal (host s') = fsJournal w.
Proof.
  intros w.
  exact (placeholder_is_not_removable codeUnitCompare w eq_refl).
Defined.

(* ================================================================= *)
(** ** Add: first use, empty entry, failure, and the tree afterwards *)

Section AddEdges.
Variable path_relative : jsstring -> jsstring -> jsstring.

(** X19: In a workspace without [.git/info], adding a non-empty entry creates
    the directory and then the file, in that order and once each; the
    file holds the entry and a newline, and the outcome is Added. *)
Theorem excludeFileFromGit_on_fresh_repository
    (filePath : jsstring) (w : World) (root : jsstring)
    (rest : list jsstring) :
  workspaceFolders w = Some (root :: rest) ->
  gitInfo w = NoInfoDir ->
  let p := pathToAdd path_relative root filePath in
  p <> [] ->
  exists w',
    excludeFileFromGit path_relative filePath w = (Ok true, w')
    /\ gitInfo w' = InfoDir (RegularFile (p ++ [LF]))
    /\ fsJournal w'
       = fsJournal w ++ [MkdirRecursive (GitInfoDirPath root);
                         WriteFile (ExcludeFilePath root) (p ++ [LF])]
    /\ notifications w' = notifications w ++ [Added p].
Proof.
  intros Hw Hg p Hp.
  rewrite (excludeFileFromGit_run path_relative filePath w root rest Hw)
    by congruence.
  rewrite Hg. simpl priorContent. fold p.
  assert (E : includes (split (js "")) p = false).
  { apply includes_not_In. intros [K|[]]. apply Hp. rewrite <- K. reflexivity. }
  rewrite E. eexists. split; [reflexivity|].
  destruct w as [wf g ee ns co j]; simpl in *; subst.
  unfold written, withInfoDir, notified, run, setGitInfo; simpl.
  rewrite <- app_assoc. repeat split.
Qed.

(** X20: The empty entry (the relative path of the workspace folder itself) is
    never written where the old content has an empty line, which covers a
    missing file, an empty file and every file that ends in a newline:
    the call reports AlreadyPresent, returns [true] and leaves the
    exclude file as it was. *)
Theorem excludeFileFromGit_empty_entry_already_present
    (filePath : jsstring) (w : World) (root : jsstring)
    (rest : list jsstring) :
  workspaceFolders w = Some (root :: rest) ->
  gitInfo w <> InfoDir Directory ->
  pathToAdd path_relative root filePath = [] ->
  In [] (split (priorContent (gitInfo w))) ->
  exists w',
    excludeFileFromGit path_relative filePath w = (Ok true, w')
    /\ notifications w' = notifications w ++ [AlreadyPresent []]
    /\ priorContent (gitInfo w') = priorContent (gitInfo w)
    /\ (forall content, gitInfo w' = InfoDir (RegularFile content) ->
        gitInfo w = InfoDir (RegularFile content))
    /\ value getExcludedFiles w' = value getExcludedFiles w.
Proof.
  intros Hw Hg Hp Hin.
  rewrite (excludeFileFromGit_run path_relative filePath w root rest Hw Hg).
  rewrite Hp. apply includes_In in Hin. rewrite Hin.
  eexists. split; [reflexivity|].
  rewrite !getExcludedFiles_value.
  destruct w as [wf g ee ns co j]; simpl in *; subst.
  destruct g as [|[|c|]]; try congruence; repeat split;
    try (intros content K; discriminate K); auto.
Qed.

(** X21: [excludeFileFromGit] never throws. When it returns [false] nothing was
    written and the last message shown is an error; when it returns
    [true] a workspace folder is open, [.git/info] exists afterwards and
    the last message shown is an information. *)
Theorem excludeFileFromGit_failure_writes_nothing
    (filePath : jsstring) (w : World) :
  exists b w',
    excludeFileFromGit path_relative filePath w = (Ok b, w')
    /\ (b = false ->
        gitInfo w' = gitInfo w
        /\ fsJournal w' = fsJournal w
        /\ exists m, notifications w' = notifications w ++ [(SevError, m)])
    /\ (b = true ->
        noFolders (workspaceFolders w) = false
        /\ gitInfo w' <> NoInfoDir
        /\ exists m,
             notifications w' = notifications w ++ [(SevInformation, m)]).
Proof.
  destruct (noFolders (workspaceFolders w)) eqn:Hf.
  - rewrite (excludeFileFromGit_noFolders path_relative filePath w Hf).
    do 2 eexists. split; [reflexivity|]. split; [|discriminate].
    intros _. destruct w; simpl. eauto.
  - destruct (noFolders_false _ Hf) as (root & rest & Hw).
    destruct (gitInfo w) as [|[|c|]] eqn:Hg.
    + rewrite (excludeFileFromGit_run path_relative filePath w root rest Hw)
        by congruence.
      rewrite Hg.
      destruct (includes _ _); do 2 eexists; (split; [reflexivity|]);
        (split; [discriminate|]); intros _; (split; [reflexivity|]);
        destruct w; simpl in *; subst; (split; [discriminate|]); eauto.
    + rewrite (excludeFileFromGit_run path_relative filePath w root rest Hw)
        by congruence.
      rewrite Hg.
      destruct (includes _ _); do 2 eexists; (split; [reflexivity|]);
        (split; [discriminate|]); intros _; (split; [reflexivity|]);
        destruct w; simpl in *; subst; (split; [discriminate|]); eauto.
    + rewrite (excludeFileFromGit_run path_relative filePath w root rest Hw)
        by congruence.
      rewrite Hg.
      destruct (includes _ _); do 2 eexists; (split; [reflexivity|]);
        (split; [discriminate|]); intros _; (split; [reflexivity|]);
        destruct w; simpl in *; subst; (split; [discriminate|]); eauto.
    + rewrite (excludeFileFromGit_directory path_relative filePath w root
                 rest Hw Hg).
      do 2 eexists. split; [reflexivity|]. split; [|discriminate].
      intros _. destruct w; simpl in *. eauto.
Qed.

Variable localeCompare : jsstring -> jsstring -> Z.

(** X22: After the add command on an entry that is one trimmed, non-empty,
    non-comment line (workspace folder open, exclude file readable or
    absent), the change event has fired and the root query on the new
    host returns a node labelled with that entry. *)
Theorem added_entry_gets_a_node
    (filePath : jsstring) (w : World) (root : jsstring)
    (rest : list jsstring) :
  workspaceFolders w = Some (root :: rest) ->
  gitInfo w <> InfoDir Directory ->
  let p := pathToAdd path_relative root filePath in
  isEntryLine p -> trim p = p -> ~ In LF p ->
  exists s' nodes,
    excludeFromGitCommand path_relative (Some filePath) (sessionOn w)
    = (Ok tt, s')
    /\ treeDataChanged s' = 1
    /\ value (getChildren localeCompare None) (host s') = Ok nodes
    /\ In p (map label nodes).
Proof.
  intros Hw Hg p He Htrim Hlf.
  destruct (excludeFileFromGit_lists_entry_aux path_relative filePath w root
              rest Hw Hg He Htrim Hlf) as (Hv & _ & (entries & Hentries & Hin)).
  unfold value in Hv.
  destruct (excludeFileFromGit path_relative filePath w) as [r w1] eqn:E.
  simpl in Hv. subst r.
  assert (Hrun : run (excludeFileFromGit path_relative filePath) w = w1)
    by (unfold run; rewrite E; reflexivity).
  rewrite Hrun in Hentries.
  rewrite getExcludedFiles_value in Hentries. injection Hentries as Hentries.
  assert (Hne : entriesOf w1 <> [])
    by (rewrite Hentries; intros K; rewrite K in Hin; destruct Hin).
  assert (Hf : noFolders (workspaceFolders w1) = false).
  { unfold entriesOf in Hne. destruct (noFolders (workspaceFolders w1));
      congruence. }
  destruct (noFolders_false _ Hf) as (root1 & rest1 & Hw1).
  destruct (getChildren_nodes localeCompare w1 root1 rest1 Hw1 Hne)
    as (items & Ec & Hl & _).
  unfold excludeFromGitCommand, cbind.
  rewrite (liftHost_run _ _ (sessionOn w) _ _ E).
  do 2 eexists. split; [reflexivity|]. simpl host. simpl treeDataChanged.
  split; [reflexivity|]. unfold value. rewrite Ec. split; [reflexivity|].
  eapply Permutation_in;
    [apply Permutation_sym, Permutation_map, sort_perm|].
  rewrite Hl, Hentries. exact Hin.
Qed.

End AddEdges.

Lemma excludeFileFromGit_on_fresh_repository_witness :
  let w := wsWorld NoInfoDir (fun _ => false) in
  exists w',
    excludeFileFromGit relativeBelow (js "/ws/a.txt") w = (Ok true, w')
    /\ gitInfo w' = InfoDir (RegularFile (js "a.txt" ++ [LF]))
    /\ fsJournal w'
       = fsJournal w ++ [MkdirRecursive (GitInfoDirPath (js "/ws"));
                         WriteFile (ExcludeFilePath (js "/ws"))
                                   (js "a.txt" ++ [LF])]
    /\ notifications w' = notifications w ++ [Added (js "a.txt")].
Proof.
  intros w.
  apply (excludeFileFromGit_on_fresh_repository relativeBelow (js "/ws/a.txt")
           w (js "/ws") [] eq_refl eq_refl).
  discriminate.
Defined.

Lemma excludeFileFromGit_empty_entry_already_present_witness :
  let w := fileWorld (join [js "a.txt"; js ""]) in
  exists w',
    excludeFileFromGit (fun _ _ => js "") (js "/ws") w = (Ok true, w')
    /\ notifications w' = notifications w ++ [AlreadyPresent []]
    /\ priorContent (gitInfo w') = priorContent (gitInfo w)
    /\ (forall content, gitInfo w' = InfoDir (RegularFile content) ->
        gitInfo w = InfoDir (RegularFile content))
    /\ value getExcludedFiles w' = value getExcludedFiles w.
Proof.
  intros w.
  apply (excludeFileFromGit_empty_entry_already_present (fun _ _ => js "")
           (js "/ws") w (js "/ws") [] eq_refl).
  - discriminate.
  - reflexivity.
  - right. left. reflexivity.
Defined.

Lemma added_entry_gets_a_node_witness :
  let w := fileWorld (join [js "# mine"; js "z.txt"; js ""]) in
  exists s' nodes,
    excludeFromGitCommand relativeBelow (Some (js "/ws/a.txt")) (sessionOn w)
    = (Ok tt, s')
    /\ treeDataChanged s' = 1
    /\ value (getChildren codeUnitCompare None) (host s') = Ok nodes
    /\ In (js "a.txt") (map label nodes).
Proof.
  intros w.
  apply (added_entry_gets_a_node relativeBelow codeUnitCompare (js "/ws/a.txt")
           w (js "/ws") [] eq_refl).
  - discriminate.
  - split; discriminate.
  - reflexivity.
  - vm_compute. intuition discriminate.
Defined.
